(** * Congestion forecasting engine of BigD: a shallow embedding

    Sources embedded here:
    - [src/ml-service/traffic_model.py]: [TrafficPredictionModel.predict]
    - [src/server/app/services/ml_service.py]: [MLService.load_models],
      [MLService.prepare_features], [MLService.predict_congestion_xgboost]
    - [src/server/app/core/cache.py]: [get_cache], [set_cache]

    Numbers are modelled as exact rationals [Q]; the regressors, the scaler
    and the XGBoost booster are opaque functions, as in the code. *)

From Stdlib Require Import QArith Qabs Qminmax Qround ZArith Lia Lqa Sorted Permutation.
From stdpp Require Import base gmap strings list.

Open Scope Z_scope.

(** ** Python exceptions that can escape the embedded functions *)
Inductive exn :=
| ValueError (msg : string)
| TypeError (msg : string)
| KeyError (key : string)
| CacheError (msg : string).

Inductive result (A : Type) :=
| Ok (a : A)
| Err (e : exn).
Arguments Ok {A} a.
Arguments Err {A} e.

(** ** Numeric helpers *)

(** [max(lo, min(hi, x))] as written in the code. *)
Definition clamp (lo hi x : Q) : Q := Qmax lo (Qmin hi x).

(** [np.clip(x, lo, hi)] is [minimum(maximum(x, lo), hi)]. *)
Definition np_clip (x lo hi : Q) : Q := Qmin (Qmax x lo) hi.

(** Python's [round(x)] on a number: round half to even. *)
Definition round_half_even (q : Q) : Z :=
  let fl := Qfloor q in
  let d := (q - inject_Z fl)%Q in
  match Qcompare d (1 # 2) with
  | Lt => fl
  | Gt => fl + 1
  | Eq => if Z.even fl then fl else fl + 1
  end.

(** Python's [round(x, 2)]. *)
Definition round2 (q : Q) : Q := Qmake (round_half_even (q * inject_Z 100)%Q) 100.

(** ** [TrafficPredictionModel] (src/ml-service/traffic_model.py) *)
Module TrafficModel.

(** The trained ensemble, [self.model = {'rf': rf_model, 'gb': gb_model}]:
    each regressor maps a scaled feature row to its raw output. *)
Record Ensemble := {
  rf : list Q -> Q;
  gb : list Q -> Q
}.

Record TrafficPredictionModel := {
  model : option Ensemble;          (* None until train() or load() *)
  scaler : list Q -> list Q          (* StandardScaler.transform on one row *)
}.

Record Prediction := {
  congestion : Q;
  confidence : Q;
  current_speed : Q;
  free_flow_speed : Q;
  speed_reduction_percent : Q
}.

Definition is_weekend (day_of_week : Z) : Z :=
  if decide (day_of_week = 5 \/ day_of_week = 6) then 1 else 0.

Definition is_rush_hour (hour : Z) : Z :=
  if decide (hour = 7 \/ hour = 8 \/ hour = 9 \/ hour = 17 \/ hour = 18 \/ hour = 19)
  then 1 else 0.

Definition historical_avg (hour day_of_week : Z) : Q :=
  let base :=
    if Z.eqb (is_rush_hour hour) 1 then 70%Q
    else if (11 <=? hour) && (hour <=? 14) then 40%Q
    else if (22 <=? hour) || (hour <=? 5) then 15%Q
    else 35%Q in
  if Z.eqb (is_weekend day_of_week) 1 then (base * (7 # 10))%Q else base.

Definition features (hour day_of_week : Z) (lat lon ffs : Q) : list Q :=
  [inject_Z hour; inject_Z day_of_week; inject_Z (is_weekend day_of_week);
   inject_Z (is_rush_hour hour); lat; lon; ffs; historical_avg hour day_of_week].

(** [TrafficPredictionModel.predict(hour, day_of_week, lat, lon, free_flow_speed)] *)
Definition predict (self : TrafficPredictionModel) (hour day_of_week : Z)
    (lat lon ffs : Q) : result Prediction :=
  match model self with
  | None => Err (ValueError "Model not trained. Call train() first.")
  | Some m =>
      let features_scaled := scaler self (features hour day_of_week lat lon ffs) in
      let rf_pred := rf m features_scaled in
      let gb_pred := gb m features_scaled in
      let c0 := ((rf_pred + gb_pred) / 2)%Q in
      let c := np_clip c0 0 100 in
      let prediction_variance := Qabs (rf_pred - gb_pred) in
      let conf := Qmax 70 (Qmin 95 (95 - prediction_variance)) in
      let speed_reduction := ((c / 100) * (6 # 10))%Q in
      let cur := (ffs * (1 - speed_reduction))%Q in
      Ok {| congestion := c; confidence := conf; current_speed := cur;
            free_flow_speed := ffs; speed_reduction_percent := (speed_reduction * 100)%Q |}
  end.

End TrafficModel.

(** ** Clock and the cache-key timestamp

    An instant is a number of seconds since 1970-01-01T00:00:00 UTC (a
    Thursday); sub-second parts never reach a feature or a key. *)
Module Clock.

(** [datetime.min] and [datetime.max] (to the second). *)
Definition datetime_min : Z := -62135596800.
Definition datetime_max : Z := 253402300799.

Definition hour (t : Z) : Z := (t / 3600) mod 24.

(** [datetime.weekday()]: Monday is 0, and 1970-01-01 was a Thursday (3). *)
Definition weekday (t : Z) : Z := (t / 86400 + 3) mod 7.

(** Civil date of a day number (days since 1970-01-01). *)
Definition civil_from_days (z0 : Z) : Z * Z * Z :=
  let z := z0 + 719468 in
  let era := z / 146097 in
  let doe := z - era * 146097 in
  let yoe := (doe - doe / 1460 + doe / 36524 - doe / 146096) / 365 in
  let y := yoe + era * 400 in
  let doy := doe - (365 * yoe + yoe / 4 - yoe / 100) in
  let mp := (5 * doy + 2) / 153 in
  let d := doy - (153 * mp + 2) / 5 + 1 in
  let m := if mp <? 10 then mp + 3 else mp - 9 in
  (if m <=? 2 then y + 1 else y, m, d).

Definition digit (n : Z) : string := String (Ascii.ascii_of_nat (48 + Z.to_nat n)) EmptyString.

(** Zero-padded decimal of a non-negative number on [w] digits. *)
Fixpoint pad (w : nat) (n : Z) : string :=
  match w with
  | O => EmptyString
  | S w' => pad w' (n / 10) +:+ digit (n mod 10)
  end.

(** [t.strftime('%Y%m%d%H')] *)
Definition strftime_YmdH (t : Z) : string :=
  let '(y, m, d) := civil_from_days (t / 86400) in
  pad 4 y +:+ pad 2 m +:+ pad 2 d +:+ pad 2 (hour t).

End Clock.

(** ** Redis helpers (src/server/app/core/cache.py) *)
Module Cache.

(** One forecast point, the dict appended in [predict_congestion_xgboost]. *)
Record Point := {
  forecast_hours : Z;
  target_time : Z;               (* forecast_time, sent as isoformat() *)
  predicted_congestion : Q;
  congestion_level : Z;
  confidence : Q;
  model_name : string
}.

(** A value as [json.loads] returns it: a list of prediction dicts, as
    [predict_congestion_xgboost] caches them, or any other JSON value (such
    as the dicts [FeatherlessAIService] caches, or [{}]), of which only its
    Python truthiness is kept. *)
Inductive Json :=
| JPoints (l : list Point)
| JOther (truthy : bool).

(** Python truthiness of a decoded value. *)
Definition json_truthy (j : Json) : bool :=
  match j with
  | JPoints l => match l with [] => false | _ => true end
  | JOther t => t
  end.

(** A stored Redis value: a valid JSON text, given by the value it decodes
    to ([json.dumps] of that value when [set_cache] wrote it), or a text
    that is not valid JSON. *)
Inductive RVal :=
| RJson (v : Json)
| RRaw (s : string).

(** The Redis server as seen by the client: whether it answers, and its
    keys with their value and absolute expiry time. *)
Record Redis := {
  alive : bool;
  store : gmap string (RVal * Z)
}.

(** The module-level [redis_client]: [None] until [init_redis] succeeded. *)
Definition Client := option Redis.

Definition REDIS_CACHE_TTL : Z := 3600.

(** [await redis_client.get(key)]: a key reads as absent once the time
    is past its expiry; at the expiry instant itself it is still served. *)
Definition redis_get (now : Z) (c : Client) (key : string) : result (option RVal) :=
  match c with
  | None => Err (CacheError "'NoneType' object has no attribute 'get'")
  | Some r =>
      if alive r then
        Ok (match store r !! key with
            | Some (v, exp) => if now <=? exp then Some v else None
            | None => None
            end)
      else Err (CacheError "Connection refused")
  end.

(** [await redis_client.setex(key, ttl, serialized)]: the server refuses
    an expire time that is not positive. *)
Definition redis_setex (now : Z) (c : Client) (key : string) (ttl : Z) (v : RVal)
    : result Client :=
  match c with
  | None => Err (CacheError "'NoneType' object has no attribute 'setex'")
  | Some r =>
      if alive r then
        if ttl <=? 0 then Err (CacheError "invalid expire time in 'setex' command")
        else Ok (Some {| alive := true; store := <[key := (v, now + ttl)]> (store r) |})
      else Err (CacheError "Connection refused")
  end.

(** Truthiness of the string returned by Redis: a valid JSON text is
    never empty. *)
Definition truthy (v : RVal) : bool :=
  match v with
  | RJson _ => true
  | RRaw s => negb (String.eqb s EmptyString)
  end.

Definition json_loads (v : RVal) : result Json :=
  match v with
  | RJson l => Ok l
  | RRaw _ => Err (ValueError "Expecting value")
  end.

(** [get_cache(key)]: every exception is logged and turned into [None]. *)
Definition get_cache (now : Z) (c : Client) (key : string) : option Json :=
  match redis_get now c key with
  | Err _ => None
  | Ok None => None
  | Ok (Some v) =>
      if truthy v then
        match json_loads v with
        | Ok x => Some x
        | Err _ => None
        end
      else None
  end.

(** [set_cache(key, value, ttl)]: the new client state and the returned
    boolean; every exception is logged and turned into [False]. *)
Definition set_cache (now : Z) (c : Client) (key : string) (value : Json) (ttl : Z)
    : Client * bool :=
  let ttl := if Z.eqb ttl 0 then REDIS_CACHE_TTL else ttl in
  match redis_setex now c key ttl (RJson value) with
  | Ok c' => (c', true)
  | Err _ => (c, false)
  end.

End Cache.

(** ** [MLService] (src/server/app/services/ml_service.py) *)
Module ML.
Import Cache.

(** A float of the feature row: a number, or [nan] for a missing or NULL
    cell of the history frame. *)
Inductive Num :=
| Val (q : Q)
| NaN.

(** A loaded XGBoost booster: [DMatrix] construction plus [predict] on one
    feature row ([nan] entries are XGBoost's missing values); [None] when
    either raises. *)
Definition Booster := list Num -> option Q.

Record MLService := {
  xgboost_model : option Booster;
  feature_columns : option (list string)
}.

(** [MLService.__init__] *)
Definition init : MLService := {| xgboost_model := None; feature_columns := None |}.

Definition feature_columns_const : list string :=
  ["hour_of_day"; "day_of_week"; "is_weekend"; "is_holiday";
   "temperature"; "precipitation"; "visibility";
   "vehicle_count"; "average_speed"; "incident_reported";
   "event_nearby"; "congestion_lag_1h"; "congestion_lag_3h";
   "congestion_lag_24h"; "speed_lag_1h"].

(** [MLService.load_models]: [xgb_file] is the booster read from
    [XGBOOST_MODEL_PATH] when that file exists; the model is left as it
    was otherwise, and the feature columns are always set. *)
Definition load_models (xgb_file : option Booster) (self : MLService) : MLService :=
  {| xgboost_model := match xgb_file with Some b => Some b | None => xgboost_model self end;
     feature_columns := Some feature_columns_const |}.

(** The [data] dict: its numeric entries and its ['timestamp'] entry. *)
Record Data := {
  fields : gmap string Q;
  timestamp : option Z
}.

(** A DataFrame row: its non-null cells. *)
Definition Row := gmap string Q.

(** The [historical_data] DataFrame: its columns and its rows.  A row
    without a value for one of the columns holds [NaN] (or [None]) there,
    as when the frame is built from records with a NULL or missing
    field. *)
Record Frame := {
  columns : list string;
  frame_rows : list Row
}.

(** [d.get(k, default)] *)
Definition dget (d : gmap string Q) (k : string) (default : Q) : Q :=
  match d !! k with Some v => v | None => default end.

(** [historical_data.iloc[-k]] for [1 <= k <= len]. *)
Definition iloc_from_end (rows : list Row) (k : nat) : Row :=
  default ∅ (rows !! (length rows - k)%nat).

(** [row.get(k, default)] on a row of the frame: the cell when the frame
    has the column [k], [nan] when that cell is empty, and [default] only
    when the frame has no such column. *)
Definition row_get (fr : Frame) (row : Row) (k : string) (default : Q) : Num :=
  if existsb (String.eqb k) (columns fr) then
    match row !! k with Some v => Val v | None => NaN end
  else Val default.

Definition lag_features (data : Data) (historical_data : option Frame) : Num * Num * Num * Num :=
  match historical_data with
  | Some fr =>
      let rows := frame_rows fr in
      if (0 <? length rows)%nat then
        (row_get fr (iloc_from_end rows 1) "congestion_level" 2,
         (if (3 <=? length rows)%nat then row_get fr (iloc_from_end rows 3) "congestion_level" 2
          else Val 2),
         (if (24 <=? length rows)%nat then row_get fr (iloc_from_end rows 24) "congestion_level" 2
          else Val 2),
         row_get fr (iloc_from_end rows 1) "average_speed" 40)
      else
        (Val (dget (fields data) "congestion_level" 2), Val 2, Val 2,
         Val (dget (fields data) "average_speed" 40))
  | None =>
      (Val (dget (fields data) "congestion_level" 2), Val 2, Val 2,
       Val (dget (fields data) "average_speed" 40))
  end.

(** The [features] dict built by [prepare_features]; [now] is the value
    of [datetime.utcnow()] used when [data] has no timestamp. *)
Definition features_dict (now : Z) (data : Data) (historical_data : option Frame)
    : gmap string Num :=
  let ts := match timestamp data with Some t => t | None => now end in
  let d := fields data in
  let '(l1, l3, l24, s1) := lag_features data historical_data in
  <["speed_lag_1h" := s1]> (<["congestion_lag_24h" := l24]>
  (<["congestion_lag_3h" := l3]> (<["congestion_lag_1h" := l1]>
  (<["event_nearby" := Val (dget d "event_nearby" 0)]>
  (<["incident_reported" := Val (dget d "incident_reported" 0)]>
  (<["average_speed" := Val (dget d "average_speed" 40)]>
  (<["vehicle_count" := Val (dget d "vehicle_count" 100)]>
  (<["visibility" := Val (dget d "visibility" 10)]>
  (<["precipitation" := Val (dget d "precipitation" 0)]>
  (<["temperature" := Val (dget d "temperature" 20)]>
  (<["is_holiday" := Val (dget d "is_holiday" 0)]>
  (<["is_weekend" := Val (if 5 <=? Clock.weekday ts then 1%Q else 0%Q)]>
  (<["day_of_week" := Val (inject_Z (Clock.weekday ts))]>
  (<["hour_of_day" := Val (inject_Z (Clock.hour ts))]> ∅)))))))))))))).

(** [np.array([[features[col] for col in self.feature_columns]])] *)
Fixpoint select_columns (features : gmap string Num) (cols : list string) : result (list Num) :=
  match cols with
  | [] => Ok []
  | col :: rest =>
      match features !! col with
      | None => Err (KeyError col)
      | Some v =>
          match select_columns features rest with
          | Ok vs => Ok (v :: vs)
          | Err e => Err e
          end
      end
  end.

(** [MLService.prepare_features(data, historical_data)] *)
Definition prepare_features (self : MLService) (now : Z) (data : Data)
    (historical_data : option Frame) : result (list Num) :=
  let features := features_dict now data historical_data in
  match feature_columns self with
  | None => Err (TypeError "'NoneType' object is not iterable")
  | Some cols => select_columns features cols
  end.

(** The body of the [try] block for one horizon; [None] when it raises
    (the exception is logged and the horizon skipped). *)
Definition predict_one (self : MLService) (b : Booster) (now : Z) (current_data : Data)
    (historical_data : option Frame) (hours_ahead : Z) : option Point :=
  let forecast_time := now + hours_ahead * 3600 in
  if (forecast_time <? Clock.datetime_min) || (Clock.datetime_max <? forecast_time)
  then None                                          (* OverflowError *)
  else
    let forecast_data := {| fields := fields current_data; timestamp := Some forecast_time |} in
    match prepare_features self now forecast_data historical_data with
    | Err _ => None
    | Ok features =>
        match b features with
        | None => None
        | Some prediction =>
            let conf := ((85 # 100) - inject_Z hours_ahead * (2 # 100))%Q in
            let conf := Qmax (1 # 2) (Qmin (95 # 100) conf) in
            Some {| forecast_hours := hours_ahead;
                    target_time := forecast_time;
                    predicted_congestion := round2 prediction;
                    congestion_level := round_half_even prediction;
                    confidence := round2 conf;
                    model_name := "xgboost" |}
        end
    end.

(** The [for hours_ahead in forecast_hours] loop. *)
Fixpoint horizon_loop (self : MLService) (b : Booster) (now : Z) (current_data : Data)
    (historical_data : option Frame) (forecast_hours : list Z) : list Point :=
  match forecast_hours with
  | [] => []
  | h :: rest =>
      match predict_one self b now current_data historical_data h with
      | Some p => p :: horizon_loop self b now current_data historical_data rest
      | None => horizon_loop self b now current_data historical_data rest
      end
  end.

(** [f"prediction:xgb:{location_id}:{datetime.utcnow().strftime('%Y%m%d%H')}"] *)
Definition cache_key (location_id : string) (now : Z) : string :=
  "prediction:xgb:" +:+ location_id +:+ ":" +:+ Clock.strftime_YmdH now.

Definition nonempty {A} (l : list A) : bool := match l with [] => false | _ => true end.

(** [MLService.predict_congestion_xgboost]: the Redis client is threaded
    through; [now] is the value of [datetime.utcnow()] during the call. *)
Definition predict_congestion_xgboost (self : MLService) (c : Client) (now : Z)
    (location_id : string) (current_data : Data) (forecast_hours : list Z)
    (historical_data : option Frame) : Client * result Json :=
  match xgboost_model self with
  | None => (c, Err (ValueError "XGBoost model not loaded"))
  | Some b =>
      let key := cache_key location_id now in
      match get_cache now c key with
      | Some cached =>
          if json_truthy cached then (c, Ok cached)
          else
            let predictions := horizon_loop self b now current_data historical_data forecast_hours in
            if nonempty predictions
            then (fst (set_cache now c key (JPoints predictions) 1800), Ok (JPoints predictions))
            else (c, Ok (JPoints predictions))
      | None =>
          let predictions := horizon_loop self b now current_data historical_data forecast_hours in
          if nonempty predictions
          then (fst (set_cache now c key (JPoints predictions) 1800), Ok (JPoints predictions))
          else (c, Ok (JPoints predictions))
      end
  end.

End ML.

(** ** Concurrent requests on the asyncio event loop

    A call of [predict_congestion_xgboost] yields to the event loop at
    [await get_cache(...)] and at [await set_cache(...)]; between the two
    awaits the horizon loop runs without yielding.  A call is modelled as
    two atomic steps: the model check and the cache read, then the
    computation with the cache write.  Merging the write into the second
    step only removes interleavings, so every run here is a run of the code. *)
Module Async.
Import Cache ML.

Record Call := {
  call_now : Z;
  location_id : string;
  current_data : Data;
  forecast_hours : list Z;
  historical_data : option Frame
}.

Inductive pc :=
| AtStart
| AfterGet (cached : option Json)
| Finished (r : result Json).

Record Sys := {
  service : MLService;
  client : Client;
  computations : nat        (* runs of the horizon loop so far *)
}.

Definition key_of (cl : Call) : string := cache_key (location_id cl) (call_now cl).

(** One atomic step of one call. *)
Definition step (s : Sys) (cl : Call) (p : pc) : Sys * pc :=
  match p with
  | AtStart =>
      match xgboost_model (service s) with
      | None => (s, Finished (Err (ValueError "XGBoost model not loaded")))
      | Some _ => (s, AfterGet (get_cache (call_now cl) (client s) (key_of cl)))
      end
  | AfterGet cached =>
      match xgboost_model (service s) with
      | None => (s, Finished (Err (ValueError "XGBoost model not loaded")))
      | Some b =>
          match cached with
          | Some j => if json_truthy j then (s, Finished (Ok j)) else
              let predictions := horizon_loop (service s) b (call_now cl) (current_data cl)
                                   (historical_data cl) (forecast_hours cl) in
              let c' := if nonempty predictions
                        then fst (set_cache (call_now cl) (client s) (key_of cl)
                                    (JPoints predictions) 1800)
                        else client s in
              ({| service := service s; client := c'; computations := S (computations s) |},
               Finished (Ok (JPoints predictions)))
          | None =>
              let predictions := horizon_loop (service s) b (call_now cl) (current_data cl)
                                   (historical_data cl) (forecast_hours cl) in
              let c' := if nonempty predictions
                        then fst (set_cache (call_now cl) (client s) (key_of cl)
                                    (JPoints predictions) 1800)
                        else client s in
              ({| service := service s; client := c'; computations := S (computations s) |},
               Finished (Ok (JPoints predictions)))
          end
      end
  | Finished r => (s, Finished r)
  end.

(** Run a schedule: each entry names the call that takes the next step. *)
Fixpoint run (sched : list nat) (s : Sys) (ts : list (Call * pc)) : Sys * list (Call * pc) :=
  match sched with
  | [] => (s, ts)
  | i :: rest =>
      match ts !! i with
      | None => run rest s ts
      | Some (cl, p) =>
          let '(s', p') := step s cl p in
          run rest s' (<[i := (cl, p')]> ts)
      end
  end.

Definition start (cls : list Call) : list (Call * pc) := map (fun cl => (cl, AtStart)) cls.

Definition outcome (ts : list (Call * pc)) (i : nat) : option (result Json) :=
  match ts !! i with
  | Some (_, Finished r) => Some r
  | _ => None
  end.

End Async.

(** ** Training data of [TrafficPredictionModel]
    ([generate_synthetic_training_data], src/ml-service/traffic_model.py) *)
Module Synthetic.
Import TrafficModel.

(** The random draws of one sample, in the order the loop makes them:
    [randint(0, 24)], [randint(0, 7)], four [random()] and one [randn()]. *)
Record Draws := {
  d_hour : Z;
  d_day : Z;
  u_lat : Q;
  u_lon : Q;
  u_ffs : Q;
  u_base : Q;
  g_noise : Q
}.

(** [base_congestion] by time of day, before the weekend adjustment. *)
Definition base_congestion (hour : Z) (u : Q) : Q :=
  if (7 <=? hour) && (hour <=? 9) then (60 + u * 30)%Q
  else if (17 <=? hour) && (hour <=? 19) then (65 + u * 30)%Q
  else if (11 <=? hour) && (hour <=? 14) then (35 + u * 25)%Q
  else if (22 <=? hour) || (hour <=? 5) then (5 + u * 20)%Q
  else (25 + u * 25)%Q.

(** [if is_weekend: base_congestion *= 0.7] *)
Definition weekend_adjust (day_of_week : Z) (base : Q) : Q :=
  if Z.eqb (is_weekend day_of_week) 1 then (base * (7 # 10))%Q else base.

(** One iteration of the loop: the feature row appended to [X] and the
    label appended to [y]. *)
Definition synthetic_sample (d : Draws) : list Q * Q :=
  let hour := d_hour d in
  let day_of_week := d_day d in
  let lat := (37 + u_lat d * 1)%Q in
  let lon := (- (245 # 2) + u_lon d * 1)%Q in
  let free_flow_speed := (50 + u_ffs d * 30)%Q in
  let base := weekend_adjust day_of_week (base_congestion hour (u_base d)) in
  let historical_avg := base in
  let congestion := np_clip (base + g_noise d * 5) 0 100 in
  ([inject_Z hour; inject_Z day_of_week; inject_Z (is_weekend day_of_week);
    inject_Z (is_rush_hour hour); lat; lon; free_flow_speed; historical_avg],
   congestion).

(** [generate_synthetic_training_data]: one sample per draw record. *)
Definition generate_synthetic_training_data (draws : list Draws) : list (list Q) * list Q :=
  (map (fun d => fst (synthetic_sample d)) draws, map (fun d => snd (synthetic_sample d)) draws).

End Synthetic.

(** ** Flask handlers of the model service (src/ml-service/app.py) and the
    TomTom helper (src/ml-service/tomtom_api.py) *)
Module App.
Import TrafficModel.

(** A Flask response: [jsonify(...)] with status 200, or an error body
    ['error': ...] with its status code. *)
Inductive Response (A : Type) :=
| R200 (body : A)
| RError (status : Z) (error : string).
Arguments R200 {A} body.
Arguments RError {A} status error.

(** [str(e)] of the exceptions that reach a handler. *)
Definition str_exn (e : exn) : string :=
  match e with
  | ValueError m | TypeError m | CacheError m => m
  | KeyError k => "'" +:+ k +:+ "'"
  end.

(** The ['free_flow_speed'] entry, read with [data.get('free_flow_speed', 60.0)]. *)
Inductive Field :=
| FAbsent
| FNull
| FVal (q : Q).

(** The JSON body of [/predict]; [None] for a key that is absent or null
    (both read as [None] by [data.get(k)]). *)
Record PredictRequest := {
  req_hour : option Z;
  req_day_of_week : option Z;
  req_lat : option Q;
  req_lon : option Q;
  req_free_flow_speed : Field
}.

(** [predict_congestion], the [/predict] route; [mdl] is the module-level
    [model].  [nan_error] is [str(e)] of the exception a trained model
    raises on a request whose [free_flow_speed] is null: [None] reaches
    [predict], the feature row turns it into [nan], and scikit-learn
    rejects the row with a [ValueError] whose text ("Input X contains
    NaN." in recent versions) depends on its version; the route answers
    500 with that text. *)
Definition predict_congestion (mdl : TrafficPredictionModel) (nan_error : string)
    (data : PredictRequest) : Response Prediction :=
  match req_hour data, req_day_of_week data, req_lat data, req_lon data with
  | Some hour, Some day_of_week, Some lat, Some lon =>
      match req_free_flow_speed data with
      | FNull =>
          match model mdl with
          | None => RError 500 "Model not trained. Call train() first."
          | Some _ => RError 500 nan_error
          end
      | f =>
          let free_flow_speed := match f with FVal q => q | _ => 60%Q end in
          match predict mdl hour day_of_week lat lon free_flow_speed with
          | Ok prediction => R200 prediction
          | Err e => RError 500 (str_exn e)
          end
      end
  | _, _, _, _ => RError 400 "Missing required fields: hour, day_of_week, lat, lon"
  end.

(** The JSON body of [/predict-route]; [data.get('coordinates', [])] is
    falsy both when the key is absent or null and for [[]], so all three
    are [[]] here. *)
Record RouteRequest := {
  req_coordinates : list (list Q);
  req_route_hour : option Z;
  req_route_day_of_week : option Z
}.

(** [{'lat': lat, 'lon': lon, **prediction}] *)
Record Segment := {
  seg_lat : Q;
  seg_lon : Q;
  seg_prediction : Prediction
}.

Record RouteBody := {
  segments : list Segment;
  avg_congestion : Q;
  num_segments : Z
}.

(** The [for coord in coordinates] loop, threading [total_congestion];
    an exception leaves the loop with [str(e)]. *)
Fixpoint route_loop (mdl : TrafficPredictionModel) (hour day_of_week : Z)
    (coordinates : list (list Q)) (total_congestion : Q) : (list Segment * Q) + string :=
  match coordinates with
  | [] => inl ([], total_congestion)
  | coord :: rest =>
      match coord !! 0%nat, coord !! 1%nat with
      | Some lat, Some lon =>
          match predict mdl hour day_of_week lat lon 60 with
          | Err e => inr (str_exn e)
          | Ok prediction =>
              match route_loop mdl hour day_of_week rest (total_congestion + congestion prediction) with
              | inl (segs, total) =>
                  inl ({| seg_lat := lat; seg_lon := lon; seg_prediction := prediction |} :: segs, total)
              | inr e => inr e
              end
          end
      | _, _ => inr "list index out of range"          (* IndexError *)
      end
  end.

(** [predict_route], the [/predict-route] route. *)
Definition predict_route (mdl : TrafficPredictionModel) (data : RouteRequest) : Response RouteBody :=
  match req_coordinates data, req_route_hour data, req_route_day_of_week data with
  | (_ :: _) as coordinates, Some hour, Some day_of_week =>
      match route_loop mdl hour day_of_week coordinates 0 with
      | inr e => RError 500 e
      | inl (segs, total_congestion) =>
          let avg_congestion :=
            match segs with
            | [] => 0%Q
            | _ => (total_congestion / inject_Z (Z.of_nat (length segs)))%Q
            end in
          R200 {| segments := segs; avg_congestion := avg_congestion;
                  num_segments := Z.of_nat (length segs) |}
      end
  | _, _, _ => RError 400 "Missing required fields: coordinates, hour, day_of_week"
  end.

(** A TomTom flow response: its top-level entries, each an object whose
    numeric fields are kept ([flowSegmentData] is such an object). *)
Definition TomTomJson := gmap string (gmap string Q).

(** [TomTomTrafficAPI.calculate_congestion_percentage] *)
Definition calculate_congestion_percentage (traffic_data : TomTomJson) : Q :=
  match traffic_data !! "flowSegmentData" with
  | None => 0%Q
  | Some flow =>
      let current_speed := ML.dget flow "currentSpeed" 0 in
      let free_flow_speed := ML.dget flow "freeFlowSpeed" 1 in
      if Qeq_bool free_flow_speed 0 then 0%Q
      else clamp 0 100 ((1 - current_speed / free_flow_speed) * 100)
  end.

Record TomTomBody := {
  traffic_data : TomTomJson;
  tomtom_congestion : Q
}.

(** [get_tomtom_traffic], the [/tomtom/traffic] route;
    [get_traffic_flow] is the HTTP call of [tomtom_client], which returns
    [{}] when the request fails. *)
Definition get_tomtom_traffic (get_traffic_flow : Q -> Q -> TomTomJson)
    (lat lon : option Q) : Response TomTomBody :=
  match lat, lon with
  | Some lat, Some lon =>
      let td := get_traffic_flow lat lon in
      if decide (td = ∅) then RError 500 "Failed to fetch TomTom data"
      else R200 {| traffic_data := td; tomtom_congestion := calculate_congestion_percentage td |}
  | _, _ => RError 400 "Missing required fields: lat, lon"
  end.

End App.

(** ** The other [MLService] methods and the model routes
    (src/server/app/services/ml_service.py,
    src/server/app/api/v1/endpoints/predictions.py) *)
Module MLMore.
Import Cache ML App.

(** [sequence_data]: a 2-D array (timesteps x features), a 3-D array, or
    an array of another rank. *)
Inductive NDArray :=
| A2 (rows : list (list Q))
| A3 (batch : list (list (list Q)))
| AOther.

(** [self.lstm_model.predict(x, verbose=0)]: the output rows, [None] when
    it raises. *)
Definition LSTM := NDArray -> option (list (list Q)).

(** The [for idx, hours_ahead in enumerate(forecast_hours)] loop over the
    first output row [out]; an exception leaves the loop, and the points
    appended so far are returned. *)
Fixpoint lstm_loop (now : Z) (out : list Q) (idx : nat) (forecast_hours : list Z) : list Point :=
  match forecast_hours with
  | [] => []
  | hours_ahead :: rest =>
      if (idx <? length out)%nat then
        let forecast_time := now + hours_ahead * 3600 in
        if (forecast_time <? Clock.datetime_min) || (Clock.datetime_max <? forecast_time)
        then []                                           (* OverflowError *)
        else
          let prediction_value := default 0%Q (out !! idx) in
          {| forecast_hours := hours_ahead;
             target_time := forecast_time;
             predicted_congestion := round2 prediction_value;
             congestion_level := round_half_even prediction_value;
             confidence := 4 # 5;
             model_name := "lstm" |} :: lstm_loop now out (S idx) rest
      else lstm_loop now out (S idx) rest
  end.

(** [MLService.predict_congestion_lstm]; [lstm_model] is [self.lstm_model]. *)
Definition predict_congestion_lstm (lstm_model : option LSTM) (now : Z) (location_id : string)
    (sequence_data : NDArray) (forecast_hours : list Z) : result (list Point) :=
  match lstm_model with
  | None => Err (ValueError "LSTM model not loaded")
  | Some m =>
      let sequence_data := match sequence_data with A2 x => A3 [x] | s => s end in
      match m sequence_data with
      | None => Ok []                                     (* predict raised *)
      | Some [] => Ok []                                  (* lstm_predictions[0]: IndexError *)
      | Some (out :: _) => Ok (lstm_loop now out 0 forecast_hours)
      end
  end.

(** Python's [round(x, 4)]. *)
Definition round4 (q : Q) : Q := Qmake (round_half_even (q * inject_Z 10000)%Q) 10000.

(** [MLService.get_feature_importance]; [get_score] is the booster's
    [get_score(importance_type='gain')] in its key order, [None] when it
    raises. *)
Definition get_feature_importance (self : MLService) (get_score : option (list (string * Q)))
    : list (string * Q) :=
  match xgboost_model self with
  | None => []
  | Some _ =>
      match get_score with
      | None => []
      | Some importance =>
          let total := fold_left (fun acc kv => (acc + snd kv)%Q) importance 0%Q in
          (* no scores: the comprehension is empty; otherwise [v/total]
             raises ZeroDivisionError, caught *)
          if Qeq_bool total 0 then []
          else map (fun kv => (fst kv, round4 (snd kv / total))) importance
      end
  end.

(** [sorted(items, key=lambda x: x[1], reverse=True)]: a stable sort on
    decreasing value, equal values keeping their order. *)
Fixpoint insert_desc (x : string * Q) (l : list (string * Q)) : list (string * Q) :=
  match l with
  | [] => [x]
  | y :: r => if Qle_bool (snd y) (snd x) then x :: y :: r else y :: insert_desc x r
  end.

Fixpoint sorted_desc (l : list (string * Q)) : list (string * Q) :=
  match l with
  | [] => []
  | x :: r => insert_desc x (sorted_desc r)
  end.

(** The [/model/features] route ([get_feature_importance] in
    predictions.py). *)
Definition feature_importance_route (ml_service : MLService) (get_score : option (list (string * Q)))
    : Response (list (string * Q)) :=
  match get_feature_importance ml_service get_score with
  | [] => RError 503 "Feature importance not available"
  | importance => R200 (sorted_desc importance)
  end.

End MLMore.

(** ** [delete_cache] and [clear_pattern] (src/server/app/core/cache.py) *)
Module CacheMore.
Import Cache.

(** Whether [key] holds a value that has not expired at [now]. *)
Definition live (now : Z) (s : gmap string (RVal * Z)) (key : string) : bool :=
  match s !! key with Some (_, exp) => now <=? exp | None => false end.

(** [DEL k1 k2 ...] on a store: keys are removed in turn, and each one
    that was live counts. *)
Fixpoint del_keys (now : Z) (s : gmap string (RVal * Z)) (keys : list string)
    : gmap string (RVal * Z) * Z :=
  match keys with
  | [] => (s, 0)
  | k :: ks =>
      let n := if live now s k then 1 else 0 in
      let '(s', m) := del_keys now (delete k s) ks in
      (s', n + m)
  end.

(** [await redis_client.delete(k1, k2, ...)] *)
Definition redis_delete (now : Z) (c : Client) (keys : list string) : result (Client * Z) :=
  match c with
  | None => Err (CacheError "'NoneType' object has no attribute 'delete'")
  | Some r =>
      if alive r then
        let '(s', n) := del_keys now (store r) keys in
        Ok (Some {| alive := true; store := s' |}, n)
      else Err (CacheError "Connection refused")
  end.

(** [await redis_client.keys(pattern)]: the live keys the glob pattern
    matches; [matches] is Redis's glob matching for the pattern. *)
Definition redis_keys (now : Z) (c : Client) (matches : string -> bool) : result (list string) :=
  match c with
  | None => Err (CacheError "'NoneType' object has no attribute 'keys'")
  | Some r =>
      if alive r then
        Ok (List.filter (fun k => matches k && live now (store r) k) (map fst (map_to_list (store r))))
      else Err (CacheError "Connection refused")
  end.

(** [delete_cache(key)] *)
Definition delete_cache (now : Z) (c : Client) (key : string) : Client * bool :=
  match redis_delete now c [key] with
  | Ok (c', _) => (c', true)
  | Err _ => (c, false)
  end.

(** [clear_pattern(pattern)] *)
Definition clear_pattern (now : Z) (c : Client) (matches : string -> bool) : Client * Z :=
  match redis_keys now c matches with
  | Err _ => (c, 0)
  | Ok [] => (c, 0)
  | Ok keys =>
      match redis_delete now c keys with
      | Ok (c', n) => (c', n)
      | Err _ => (c, 0)
      end
  end.

End CacheMore.

(** ** [FeatherlessAIService._fallback_analysis]
    (src/server/app/services/ai_service.py) *)
Module AIFallback.

Record Insight := {
  location : string;
  analysis : string;
  current_congestion : Z;
  predictions : list Cache.Point;
  source : string
}.

Definition max_level (ps : list Cache.Point) : Z :=
  match ps with
  | [] => 0
  | p :: rest => fold_left (fun m q => Z.max m (Cache.congestion_level q)) rest (Cache.congestion_level p)
  end.

Definition fallback_analysis (location_name : string) (current_congestion : Z)
    (predicted_congestion : list Cache.Point) : Insight :=
  let analysis :=
    if 4 <=? current_congestion then
      "Heavy traffic detected at " +:+ location_name +:+ ". Consider alternative routes or delaying travel if possible."
    else if 3 <=? current_congestion then
      "Moderate congestion at " +:+ location_name +:+ ". Expect some delays."
    else
      "Traffic is flowing well at " +:+ location_name +:+ ". Good time to travel." in
  let analysis :=
    match predicted_congestion with
    | [] => analysis
    | _ => if 4 <=? max_level predicted_congestion
           then analysis +:+ " Heavy congestion is predicted in the coming hours."
           else analysis
    end in
  {| location := location_name; analysis := analysis; current_congestion := current_congestion;
     predictions := predicted_congestion; source := "fallback" |}.

End AIFallback.

(** * Properties *)

(** ** Ensemble scoring of [TrafficPredictionModel] *)
Module TrafficModelFacts.
Import TrafficModel.

Lemma np_clip_range (x : Q) : (0 <= np_clip x 0 100 <= 100)%Q.
Proof.
  unfold np_clip. split.
  - apply Q.min_glb; [apply Q.le_max_r | discriminate].
  - apply Q.le_min_r.
Qed.

Lemma clamp_range (lo hi x : Q) : (lo <= hi)%Q -> (lo <= clamp lo hi x <= hi)%Q.
Proof.
  intros H. unfold clamp. split.
  - apply Q.le_max_l.
  - apply Q.max_lub; [exact H | apply Q.le_min_l].
Qed.

(** C1: with both regressors loaded, [predict] returns the mean of the two
    raw outputs clipped to [0, 100] and the confidence
    [clamp(95 - |a - b|, 70, 95)]; both lie in their ranges whatever the
    regressors output. *)
Theorem predict_ensemble_clip_and_confidence (m : Ensemble) (sc : list Q -> list Q)
    (hour day_of_week : Z) (lat lon ffs : Q) :
  let x := sc (features hour day_of_week lat lon ffs) in
  let a := rf m x in
  let b := gb m x in
  exists r,
    predict {| model := Some m; scaler := sc |} hour day_of_week lat lon ffs = Ok r /\
    congestion r = np_clip ((a + b) / 2) 0 100 /\
    confidence r = clamp 70 95 (95 - Qabs (a - b)) /\
    (0 <= congestion r <= 100)%Q /\ (70 <= confidence r <= 95)%Q.
Proof.
  cbv zeta. eexists. split; [reflexivity|]. cbn.
  split; [reflexivity|]. split; [reflexivity|].
  split; [apply np_clip_range|].
  apply (clamp_range 70 95). discriminate.
Qed.

End TrafficModelFacts.

(** ** The "model not loaded" error *)
Module NotLoadedFacts.
Import Cache ML.

Lemma predict_loaded_ok (b : Booster) (fc : option (list string)) (c : Client) (now : Z)
    (location_id : string) (current_data : Data) (forecast_hours : list Z)
    (historical_data : option Frame) :
  exists c' l, predict_congestion_xgboost {| xgboost_model := Some b; feature_columns := fc |}
    c now location_id current_data forecast_hours historical_data = (c', Ok l).
Proof.
  unfold predict_congestion_xgboost; cbn.
  destruct (get_cache _ _ _) as [l|];
    [destruct (json_truthy l); [eauto|] |];
    destruct (nonempty _); eauto.
Qed.

(** C7: without a trained model both prediction entry points raise their
    "model not loaded" [ValueError] before touching anything (the Redis
    client is returned unchanged); with a model loaded neither raises. *)
Theorem model_not_loaded_error :
  (forall sc hour day_of_week lat lon ffs,
     TrafficModel.predict {| TrafficModel.model := None; TrafficModel.scaler := sc |}
       hour day_of_week lat lon ffs
     = Err (ValueError "Model not trained. Call train() first.")) /\
  (forall m sc hour day_of_week lat lon ffs,
     exists r, TrafficModel.predict {| TrafficModel.model := Some m; TrafficModel.scaler := sc |}
                 hour day_of_week lat lon ffs = Ok r) /\
  (forall fc c now location_id current_data forecast_hours historical_data,
     predict_congestion_xgboost {| xgboost_model := None; feature_columns := fc |}
       c now location_id current_data forecast_hours historical_data
     = (c, Err (ValueError "XGBoost model not loaded"))) /\
  (forall b fc c now location_id current_data forecast_hours historical_data,
     exists c' l, predict_congestion_xgboost {| xgboost_model := Some b; feature_columns := fc |}
       c now location_id current_data forecast_hours historical_data = (c', Ok l)).
Proof.
  split; [reflexivity|]. split.
  { intros. eexists. reflexivity. }
  split; [reflexivity|].
  intros. apply predict_loaded_ok.
Qed.

End NotLoadedFacts.

(** ** The feature vector of [prepare_features] *)
Module FeatureFacts.
Import Cache ML.

Lemma select_columns_spec (fs : gmap string Num) (cols : list string) :
  Forall (fun col => is_Some (fs !! col)) cols ->
  exists v, select_columns fs cols = Ok v /\ length v = length cols /\
    forall i col, cols !! i = Some col -> v !! i = fs !! col.
Proof.
  induction 1 as [|col rest [x Hx] _ IH].
  - exists []. split; [reflexivity|]. split; [reflexivity|]. intros i col H. done.
  - destruct IH as (v & Hv & Hlen & Hnth).
    exists (x :: v). cbn. rewrite Hx, Hv. split; [reflexivity|].
    split; [cbn; lia|].
    intros [|i] c H; cbn in H |- *.
    + injection H as <-. done.
    + apply Hnth, H.
Qed.

Lemma features_dict_complete (now : Z) (data : Data) (hist : option Frame) :
  Forall (fun col => is_Some (features_dict now data hist !! col)) feature_columns_const.
Proof.
  unfold features_dict.
  destruct (lag_features data hist) as [[[l1 l3] l24] s1].
  unfold feature_columns_const.
  repeat (apply List.Forall_cons; [eexists; reflexivity|]). apply List.Forall_nil.
Qed.

Lemma features_dict_lag24 (now : Z) (data : Data) (hist : option Frame) :
  features_dict now data hist !! "congestion_lag_24h" = Some (snd (fst (lag_features data hist))).
Proof.
  unfold features_dict.
  destruct (lag_features data hist) as [[[l1 l3] l24] s1]. reflexivity.
Qed.

Lemma prepare_features_loaded (f : option Booster) (svc : MLService) (now : Z)
    (data : Data) (hist : option Frame) :
  exists v, prepare_features (load_models f svc) now data hist = Ok v /\ length v = 15%nat /\
    forall i col, feature_columns_const !! i = Some col -> v !! i = features_dict now data hist !! col.
Proof.
  destruct (select_columns_spec _ _ (features_dict_complete now data hist)) as (v & Hv & Hl & Hn).
  exists v. unfold prepare_features. cbn [feature_columns load_models]. rewrite Hv. auto.
Qed.

(** C6: once [load_models] has run, [prepare_features] returns a vector of
    exactly 15 values whose [i]-th entry is the feature named by the
    [i]-th entry of [feature_columns], the constant set by [load_models]. *)
Theorem feature_vector_schema (f : option Booster) (svc : MLService) (now : Z)
    (data : Data) (hist : option Frame) :
  feature_columns (load_models f svc) = Some feature_columns_const /\
  length feature_columns_const = 15%nat /\
  exists v, prepare_features (load_models f svc) now data hist = Ok v /\
    length v = length feature_columns_const /\
    forall i col, feature_columns_const !! i = Some col ->
      v !! i = features_dict now data hist !! col.
Proof.
  split; [reflexivity|]. split; [reflexivity|].
  exact (prepare_features_loaded f svc now data hist).
Qed.

(** C5: the [congestion_lag_24h] entry (index 13) is the default 2 when the
    history is absent or has fewer than 24 rows, and otherwise the
    [congestion_level] cell of the row 24 positions from the end, as
    pandas reads it: its value, [nan] when that cell is NULL or missing,
    and 2 only when the frame has no [congestion_level] column at all;
    [prepare_features] does not fail. *)
Theorem lag_24h_feature (f : option Booster) (svc : MLService) (now : Z)
    (data : Data) (hist : option Frame) :
  exists v, prepare_features (load_models f svc) now data hist = Ok v /\
    (hist = None -> v !! 13%nat = Some (Val 2)) /\
    (forall fr, hist = Some fr -> (length (frame_rows fr) < 24)%nat -> v !! 13%nat = Some (Val 2)) /\
    (forall fr r, hist = Some fr -> (24 <= length (frame_rows fr))%nat ->
       frame_rows fr !! (length (frame_rows fr) - 24)%nat = Some r ->
       v !! 13%nat = Some (row_get fr r "congestion_level" 2)).
Proof.
  destruct (prepare_features_loaded f svc now data hist) as (v & Hv & _ & Hn).
  assert (H13 : v !! 13%nat = Some (snd (fst (lag_features data hist)))).
  { rewrite (Hn 13%nat "congestion_lag_24h") by reflexivity. apply features_dict_lag24. }
  exists v. split; [exact Hv|]. rewrite H13. split; [|split].
  - intros ->. reflexivity.
  - intros fr -> Hlt. unfold lag_features.
    destruct (Nat.ltb_spec 0 (length (frame_rows fr))); [|reflexivity].
    destruct (Nat.leb_spec 24 (length (frame_rows fr))); [lia|reflexivity].
  - intros fr r -> Hge Hr. unfold lag_features.
    destruct (Nat.ltb_spec 0 (length (frame_rows fr))); [|lia].
    destruct (Nat.leb_spec 24 (length (frame_rows fr))); [|lia].
    cbn [fst snd]. unfold iloc_from_end, Row in *. rewrite Hr. reflexivity.
Qed.

End FeatureFacts.

(** ** The horizon loop of [predict_congestion_xgboost] *)
Module HorizonFacts.
Import Cache ML.

Section Loop.
Variables (svc : MLService) (b : Booster) (now : Z) (data : Data) (hist : option Frame).

(** Whether the [try] body for a horizon completes. *)
Definition succeeds (h : Z) : bool :=
  match predict_one svc b now data hist h with Some _ => true | None => false end.

Lemma predict_one_horizon (h : Z) (p : Point) :
  predict_one svc b now data hist h = Some p ->
  forecast_hours p = h /\
  confidence p = round2 (clamp (1 # 2) (95 # 100) ((85 # 100) - inject_Z h * (2 # 100))).
Proof.
  unfold predict_one.
  destruct (_ || _); [discriminate|].
  destruct (prepare_features _ _ _ _); [|discriminate].
  destruct (b _); [|discriminate].
  intros H. injection H as <-. split; reflexivity.
Qed.

Lemma horizon_loop_horizons (hours : list Z) :
  map forecast_hours (horizon_loop svc b now data hist hours) = List.filter succeeds hours.
Proof.
  induction hours as [|h rest IH]; [reflexivity|].
  cbn. unfold succeeds at 1.
  destruct (predict_one svc b now data hist h) as [p|] eqn:E; [|exact IH].
  cbn. rewrite IH. f_equal. apply (predict_one_horizon h p E).
Qed.

Lemma horizon_loop_in (hours : list Z) (p : Point) :
  In p (horizon_loop svc b now data hist hours) ->
  exists h, In h hours /\ predict_one svc b now data hist h = Some p.
Proof.
  induction hours as [|h rest IH]; cbn; [tauto|].
  destruct (predict_one svc b now data hist h) as [q|] eqn:E.
  - intros [<-|Hin]; [eauto|]. destruct (IH Hin) as (h' & ? & ?). eauto.
  - intros Hin. destruct (IH Hin) as (h' & ? & ?). eauto.
Qed.

End Loop.

(** On a cache miss with a model loaded, the call returns the loop's list. *)
Lemma predict_miss (b : Booster) (fc : option (list string)) (c : Client) (now : Z)
    (loc : string) (data : Data) (hours : list Z) (hist : option Frame) :
  get_cache now c (cache_key loc now) = None ->
  snd (predict_congestion_xgboost {| xgboost_model := Some b; feature_columns := fc |}
         c now loc data hours hist)
  = Ok (JPoints (horizon_loop {| xgboost_model := Some b; feature_columns := fc |}
                  b now data hist hours)).
Proof.
  intros Hmiss. unfold predict_congestion_xgboost. cbn [xgboost_model].
  rewrite Hmiss. destruct (nonempty _); reflexivity.
Qed.

Lemma filter_strongly_sorted (f : Z -> bool) (l : list Z) :
  StronglySorted Z.le l -> StronglySorted Z.le (List.filter f l).
Proof.
  induction 1 as [|a l Hs IH Hall]; cbn; [constructor|].
  destruct (f a); [|exact IH].
  constructor; [exact IH|].
  apply List.Forall_forall. intros x Hx.
  apply List.filter_In in Hx as [Hx _].
  exact (proj1 (List.Forall_forall _ _) Hall x Hx).
Qed.

End HorizonFacts.

(** ** Confidence decay with the horizon *)
Module ConfidenceFacts.
Import Cache ML HorizonFacts.

(** The decay policy [clamp(0.85 - 0.02 h, 0.5, 0.95)]. *)
Definition coarse_conf (h : Z) : Q := clamp (1 # 2) (95 # 100) ((85 # 100) - (2 # 100) * inject_Z h).

Lemma round2_decay (h : Z) :
  round2 ((85 # 100) - inject_Z h * (2 # 100)) == (85 # 100) - (2 # 100) * inject_Z h.
Proof.
  unfold round2, round_half_even.
  cbn [Qfloor Qnum Qden Qmult Qminus Qplus Qopp inject_Z Qcompare].
  change (Z.pos (100 * (1 * 100) * 1)) with 10000.
  change (Z.pos (1 * 100)) with 100.
  match goal with |- context [Z.div ?n ?d] =>
    replace (Z.div n d) with (85 - 2 * h)
      by (rewrite <- (Z.div_mul (85 - 2 * h) 10000) by lia; f_equal; lia) end.
  match goal with |- context [Qcompare ?x ?y] => replace (Qcompare x y) with Lt end.
  - unfold Qeq. cbn. lia.
  - symmetry. rewrite <- Qlt_alt. unfold Qlt. cbn [Qnum Qden Qmult Qminus Qplus Qopp inject_Z]. lia.
Qed.

Lemma round2_conf (h : Z) :
  round2 (clamp (1 # 2) (95 # 100) ((85 # 100) - inject_Z h * (2 # 100))) == coarse_conf h.
Proof.
  assert (Hx : (85 # 100) - inject_Z h * (2 # 100) == (85 # 100) - (2 # 100) * inject_Z h)
    by (unfold Qeq; cbn; lia).
  unfold coarse_conf, clamp. rewrite <- Hx.
  unfold Qmax, Qmin, GenericMinMax.gmax, GenericMinMax.gmin.
  destruct (Qcompare (95 # 100) _); destruct (Qcompare (1 # 2) _);
    try (vm_compute; reflexivity);
    (eapply Qeq_trans; [apply round2_decay | symmetry; exact Hx]).
Qed.

(** C8: every point of the horizon loop carries the confidence
    [clamp(0.85 - 0.02 h, 0.5, 0.95)] of its horizon [h]; that value is
    non-increasing in [h] and stays in [0.5, 0.95]. *)
Theorem confidence_decay (svc : MLService) (b : Booster) (now : Z) (data : Data)
    (hist : option Frame) (hours : list Z) :
  (forall p, In p (horizon_loop svc b now data hist hours) ->
     (confidence p == coarse_conf (forecast_hours p))%Q) /\
  (forall h1 h2, h1 <= h2 -> (coarse_conf h2 <= coarse_conf h1)%Q) /\
  (forall h, (1 # 2 <= coarse_conf h <= 95 # 100)%Q).
Proof.
  split; [|split].
  - intros p Hin.
    destruct (horizon_loop_in svc b now data hist hours p Hin) as (h & _ & Hp).
    destruct (predict_one_horizon svc b now data hist h p Hp) as [-> ->].
    apply round2_conf.
  - intros h1 h2 Hle. unfold coarse_conf, clamp.
    apply Q.max_le_compat_l, Q.min_le_compat_l.
    unfold Qle. cbn. nia.
  - intros h. apply TrafficModelFacts.clamp_range. unfold Qle. cbn. lia.
Qed.

End ConfidenceFacts.

(** ** Partial results and the order of the returned list *)
Module HorizonOrderFacts.
Import Cache ML HorizonFacts.

(** A concrete service: a booster that raises on rows whose hour of day
    is 16 and predicts 3 otherwise, and an empty, reachable Redis. *)
Definition booster16 : Booster :=
  fun v => match v with
            | Val hour :: _ => if Qeq_bool hour 16 then None else Some 3%Q
            | _ => Some 3%Q
            end.

Definition svc16 : MLService := load_models (Some booster16) init.

Definition redis0 : Client := Some {| alive := true; store := ∅ |}.

Definition data0 : Data := {| fields := ∅; timestamp := None |}.

(** 2025-10-19 10:00:00 UTC *)
Definition now0 : Z := 1760868000.

(** C3: on the computing path (model loaded, cache miss), when the horizon
    [h0] raises and every other requested horizon completes, the result
    holds exactly the other horizons, in request order. *)
Theorem failed_horizon_omitted (b : Booster) (fc : option (list string)) (c : Client)
    (now : Z) (loc : string) (data : Data) (hours : list Z) (hist : option Frame) (h0 : Z)
    (Hmiss : get_cache now c (cache_key loc now) = None)
    (Hfail : predict_one {| xgboost_model := Some b; feature_columns := fc |}
               b now data hist h0 = None)
    (Hok : forall h, In h hours -> h <> h0 ->
           predict_one {| xgboost_model := Some b; feature_columns := fc |}
             b now data hist h <> None) :
  exists l,
    snd (predict_congestion_xgboost {| xgboost_model := Some b; feature_columns := fc |}
           c now loc data hours hist) = Ok (JPoints l) /\
    map forecast_hours l = List.filter (fun h => negb (Z.eqb h h0)) hours.
Proof.
  eexists. split; [apply predict_miss, Hmiss|].
  rewrite horizon_loop_horizons. apply List.filter_ext_in.
  intros h Hin. unfold succeeds.
  destruct (Z.eqb_spec h h0) as [->|Hne].
  - rewrite Hfail. reflexivity.
  - destruct (predict_one _ _ _ _ _ h) eqn:E; [reflexivity|].
    exfalso. exact (Hok h Hin Hne E).
Qed.

Lemma failed_horizon_omitted_witness :
  exists l,
    snd (predict_congestion_xgboost svc16 redis0 now0 "X" data0 [1; 3; 6; 12; 24] None) = Ok (JPoints l) /\
    map forecast_hours l = [1; 3; 12; 24].
Proof.
  destruct (failed_horizon_omitted booster16 (Some feature_columns_const) redis0 now0 "X"
              data0 [1; 3; 6; 12; 24] None 6) as (l & H1 & H2).
  - vm_compute. reflexivity.
  - vm_compute. reflexivity.
  - intros h Hin Hne.
    repeat (destruct Hin as [<-|Hin];
              [first [exfalso; apply Hne; reflexivity | vm_compute; discriminate]|]).
    destruct Hin.
  - exists l. split; [exact H1|]. rewrite H2. reflexivity.
Defined.

(** C4 refuted: the horizons come back in request order, not sorted. *)
Lemma forecast_not_sorted :
  exists l,
    snd (predict_congestion_xgboost svc16 redis0 now0 "X" data0 [3; 1] None) = Ok (JPoints l) /\
    ~ Sorted Z.le (map forecast_hours l).
Proof.
  eexists. split; [vm_compute; reflexivity|].
  cbn. intros Hs. inversion Hs as [|a l Hs' Hhd]; subst.
  inversion Hhd; lia.
Qed.

(** C4 amended: on the computing path the returned horizons are the
    requested ones whose computation completed, in request order; the
    list is therefore sorted when [forecast_hours] is. *)
Theorem forecast_request_order (b : Booster) (fc : option (list string)) (c : Client)
    (now : Z) (loc : string) (data : Data) (hours : list Z) (hist : option Frame)
    (Hmiss : get_cache now c (cache_key loc now) = None) :
  exists l,
    snd (predict_congestion_xgboost {| xgboost_model := Some b; feature_columns := fc |}
           c now loc data hours hist) = Ok (JPoints l) /\
    map forecast_hours l
      = List.filter (succeeds {| xgboost_model := Some b; feature_columns := fc |}
                       b now data hist) hours /\
    (Sorted Z.le hours -> Sorted Z.le (map forecast_hours l)).
Proof.
  eexists. split; [apply predict_miss, Hmiss|].
  rewrite horizon_loop_horizons. split; [reflexivity|].
  intros Hs. apply StronglySorted_Sorted, filter_strongly_sorted.
  apply Sorted_StronglySorted; [exact Z.le_trans | exact Hs].
Qed.

Lemma forecast_request_order_witness :
  exists l,
    snd (predict_congestion_xgboost svc16 redis0 now0 "X" data0 [1; 3; 24] None) = Ok (JPoints l) /\
    Sorted Z.le (map forecast_hours l).
Proof.
  destruct (forecast_request_order booster16 (Some feature_columns_const) redis0 now0 "X"
              data0 [1; 3; 24] None) as (l & H1 & _ & H3).
  - vm_compute. reflexivity.
  - exists l. split; [exact H1|]. apply H3.
    repeat constructor; lia.
Defined.

End HorizonOrderFacts.

(** ** Cache failures and cache hits *)
Module CacheFacts.
Import Cache ML HorizonFacts HorizonOrderFacts.

(** [get_cache] meets an exception: from the Redis call, or from
    [json.loads] on a truthy stored text. *)
Definition get_raises (now : Z) (c : Client) (key : string) : Prop :=
  (exists e, redis_get now c key = Err e) \/
  (exists v e, redis_get now c key = Ok (Some v) /\ truthy v = true /\ json_loads v = Err e).

(** [set_cache] meets an exception in [setex]. *)
Definition set_raises (now : Z) (c : Client) (key : string) (ttl : Z) (v : Json) : Prop :=
  exists e, redis_setex now c key (if Z.eqb ttl 0 then REDIS_CACHE_TTL else ttl) (RJson v) = Err e.

(** The client was never initialised, or the server does not answer. *)
Definition cache_down (c : Client) : Prop :=
  match c with None => True | Some r => alive r = false end.

Lemma cache_down_raises (now : Z) (c : Client) (key : string) (ttl : Z) (v : Json) :
  cache_down c -> get_raises now c key /\ set_raises now c key ttl v.
Proof.
  destruct c as [r|]; cbn; intros Hd.
  - unfold get_raises, set_raises, redis_get, redis_setex. rewrite Hd. eauto.
  - unfold get_raises, set_raises. cbn. eauto.
Qed.

(** C9: an exception inside [get_cache] becomes [None] and one inside
    [set_cache] becomes [False] with the client unchanged; a call with a
    model loaded then computes its list directly, and no client state
    makes such a call fail. *)
Theorem cache_failure_degrades (b : Booster) (fc : option (list string)) (c : Client)
    (now : Z) (loc : string) (data : Data) (hours : list Z) (hist : option Frame)
    (key : string) (ttl : Z) (v : Json) :
  (get_raises now c key -> get_cache now c key = None) /\
  (set_raises now c key ttl v -> set_cache now c key v ttl = (c, false)) /\
  (get_raises now c (cache_key loc now) ->
     snd (predict_congestion_xgboost {| xgboost_model := Some b; feature_columns := fc |}
            c now loc data hours hist)
     = Ok (JPoints (horizon_loop {| xgboost_model := Some b; feature_columns := fc |}
                      b now data hist hours))) /\
  (exists c' l, predict_congestion_xgboost {| xgboost_model := Some b; feature_columns := fc |}
                  c now loc data hours hist = (c', Ok l)).
Proof.
  assert (Hget : forall k, get_raises now c k -> get_cache now c k = None).
  { intros k [[e He]|(w & e & Hw & Ht & Hj)]; unfold get_cache.
    - rewrite He. reflexivity.
    - rewrite Hw, Ht, Hj. reflexivity. }
  split; [apply Hget|]. split.
  - intros [e He]. unfold set_cache. rewrite He. reflexivity.
  - split.
    + intros H. apply predict_miss, Hget, H.
    + apply NotLoadedFacts.predict_loaded_ok.
Qed.

Lemma cache_failure_degrades_witness :
  get_cache now0 None "prediction:xgb:X:2025101910" = None /\
  set_cache now0 None "prediction:xgb:X:2025101910" (JPoints []) 1800 = (None, false) /\
  snd (predict_congestion_xgboost {| xgboost_model := Some booster16;
                                     feature_columns := Some feature_columns_const |}
         None now0 "X" data0 [1] None)
  = Ok (JPoints (horizon_loop {| xgboost_model := Some booster16;
                                 feature_columns := Some feature_columns_const |}
                   booster16 now0 data0 None [1])).
Proof.
  destruct (cache_failure_degrades booster16 (Some feature_columns_const) None now0 "X"
              data0 [1] None "prediction:xgb:X:2025101910" 1800 (JPoints []))
    as (H1 & H2 & H3 & _).
  destruct (cache_down_raises now0 None "prediction:xgb:X:2025101910" 1800 (JPoints []) I)
    as [G S].
  split; [exact (H1 G)|]. split; [exact (H2 S)|].
  apply H3. apply (cache_down_raises now0 None _ 1800 (JPoints []) I).
Defined.

Lemma strftime_same_hour (t1 t2 : Z) :
  t1 / 3600 = t2 / 3600 -> Clock.strftime_YmdH t1 = Clock.strftime_YmdH t2.
Proof.
  intros H. unfold Clock.strftime_YmdH, Clock.hour.
  replace (t1 / 86400) with (t1 / 3600 / 24) by (rewrite Z.div_div; reflexivity || lia).
  replace (t2 / 86400) with (t2 / 3600 / 24) by (rewrite Z.div_div; reflexivity || lia).
  rewrite H. reflexivity.
Qed.

(** The client after a first call at [t1] that computed and cached [l1]. *)
Lemma predict_stores (svc : MLService) (b : Booster) (r : Redis) (t1 : Z) (loc : string)
    (data : Data) (hours : list Z) (hist : option Frame) (c1 : Client) (l1 : list Point) :
  xgboost_model svc = Some b -> alive r = true ->
  get_cache t1 (Some r) (cache_key loc t1) = None ->
  predict_congestion_xgboost svc (Some r) t1 loc data hours hist = (c1, Ok (JPoints l1)) ->
  nonempty l1 = true ->
  c1 = Some {| alive := true;
               store := <[cache_key loc t1 := (RJson (JPoints l1), t1 + 1800)]> (store r) |}.
Proof.
  intros Hb Ha Hmiss H Hne. unfold predict_congestion_xgboost in H.
  rewrite Hb, Hmiss in H.
  destruct (nonempty (horizon_loop svc b t1 data hist hours)) eqn:E.
  - injection H as <- <-. unfold set_cache, redis_setex. cbn. rewrite Ha. reflexivity.
  - injection H as _ <-. rewrite E in Hne. discriminate.
Qed.

(** C10 refuted: the second call, in the same UTC hour as the first but
    40 minutes later, finds the entry expired and recomputes with its own
    horizons. *)
Lemma cache_expires_within_hour :
  exists c1 l1 l2,
    predict_congestion_xgboost svc16 redis0 (now0 + 300) "X" data0 [1] None
      = (c1, Ok (JPoints l1)) /\
    nonempty l1 = true /\
    (now0 + 300) / 3600 = (now0 + 2700) / 3600 /\
    snd (predict_congestion_xgboost svc16 c1 (now0 + 2700) "X" data0 [3] None)
      = Ok (JPoints l2) /\
    l2 <> l1.
Proof.
  do 3 eexists. split; [vm_compute; reflexivity|].
  split; [reflexivity|]. split; [reflexivity|].
  split; [vm_compute; reflexivity|].
  vm_compute. discriminate.
Qed.

(** C10 amended: after a first call at [t1] that computed and cached a
    non-empty list, with Redis still answering, a second call for the same
    location in the same UTC hour returns that list unchanged, whatever its
    horizons, data or history, when it comes at most 1800 s (the TTL)
    after the first; more than 1800 s after it, the entry has expired and
    the second call returns the list computed from its own inputs. *)
Theorem cache_hit_ignores_request (b : Booster) (fc : option (list string)) (r : Redis)
    (t1 t2 : Z) (loc : string) (d1 d2 : Data) (hours1 hours2 : list Z)
    (hist1 hist2 : option Frame) (c1 : Client) (l1 : list Point)
    (Halive : alive r = true)
    (Hmiss : get_cache t1 (Some r) (cache_key loc t1) = None)
    (H1 : predict_congestion_xgboost {| xgboost_model := Some b; feature_columns := fc |}
            (Some r) t1 loc d1 hours1 hist1 = (c1, Ok (JPoints l1)))
    (Hne : nonempty l1 = true)
    (Hhour : t1 / 3600 = t2 / 3600) :
  (t2 <= t1 + 1800 ->
   predict_congestion_xgboost {| xgboost_model := Some b; feature_columns := fc |}
     c1 t2 loc d2 hours2 hist2 = (c1, Ok (JPoints l1))) /\
  (t1 + 1800 < t2 ->
   snd (predict_congestion_xgboost {| xgboost_model := Some b; feature_columns := fc |}
          c1 t2 loc d2 hours2 hist2)
   = Ok (JPoints (horizon_loop {| xgboost_model := Some b; feature_columns := fc |}
                    b t2 d2 hist2 hours2))).
Proof.
  pose proof (predict_stores {| xgboost_model := Some b; feature_columns := fc |} b r t1 loc
                d1 hours1 hist1 c1 l1 eq_refl Halive Hmiss H1 Hne) as Hc1.
  assert (Hk : cache_key loc t2 = cache_key loc t1)
    by (unfold cache_key; rewrite (strftime_same_hour t1 t2 Hhour); reflexivity).
  split.
  - intros Httl. unfold predict_congestion_xgboost. cbn [xgboost_model].
    rewrite Hk, Hc1. unfold get_cache, redis_get. cbn [alive store].
    rewrite lookup_insert_eq.
    destruct (Z.leb_spec t2 (t1 + 1800)); [|lia].
    cbn. rewrite <- Hc1. destruct l1; [discriminate|reflexivity].
  - intros Hexp. apply predict_miss.
    rewrite Hk, Hc1. unfold get_cache, redis_get. cbn [alive store].
    rewrite lookup_insert_eq.
    destruct (Z.leb_spec t2 (t1 + 1800)); [lia|reflexivity].
Qed.

Lemma cache_hit_ignores_request_witness :
  predict_congestion_xgboost svc16
    (fst (predict_congestion_xgboost svc16 redis0 (now0 + 300) "X" data0 [1] None))
    (now0 + 600) "X" data0 [3; 6] None
  = (fst (predict_congestion_xgboost svc16 redis0 (now0 + 300) "X" data0 [1] None),
     snd (predict_congestion_xgboost svc16 redis0 (now0 + 300) "X" data0 [1] None)) /\
  snd (predict_congestion_xgboost svc16
         (fst (predict_congestion_xgboost svc16 redis0 (now0 + 300) "X" data0 [1] None))
         (now0 + 2700) "X" data0 [3] None)
  = Ok (JPoints (horizon_loop svc16 booster16 (now0 + 2700) data0 None [3])).
Proof.
  destruct (predict_congestion_xgboost svc16 redis0 (now0 + 300) "X" data0 [1] None)
    as [c1 res] eqn:E.
  destruct res as [[l1|t]|e]; [|vm_compute in E; discriminate..].
  cbn [fst snd].
  assert (Hne : nonempty l1 = true) by (vm_compute in E; injection E as _ <-; reflexivity).
  assert (Hmiss : get_cache (now0 + 300) (Some {| alive := true; store := ∅ |})
                    (cache_key "X" (now0 + 300)) = None) by (vm_compute; reflexivity).
  split.
  - apply (proj1 (cache_hit_ignores_request booster16 (Some feature_columns_const)
           {| alive := true; store := ∅ |} (now0 + 300) (now0 + 600) "X" data0 data0
           [1] [3; 6] None None c1 l1 eq_refl Hmiss E Hne
           eq_refl)).
    unfold now0. lia.
  - apply (proj2 (cache_hit_ignores_request booster16 (Some feature_columns_const)
           {| alive := true; store := ∅ |} (now0 + 300) (now0 + 2700) "X" data0 data0
           [1] [3] None None c1 l1 eq_refl Hmiss E Hne
           eq_refl)).
    unfold now0. lia.
Defined.

End CacheFacts.

(** ** Concurrent calls on the same key *)
Module AsyncFacts.
Import Cache ML Async HorizonOrderFacts.

Definition sys0 (svc : MLService) (c : Client) : Sys :=
  {| service := svc; client := c; computations := 0 |}.

Definition loop_of (svc : MLService) (b : Booster) (cl : Call) : list Point :=
  horizon_loop svc b (call_now cl) (current_data cl) (historical_data cl) (forecast_hours cl).

(** The same request issued twice at 2025-10-19 10:00 UTC. *)
Definition call0 : Call :=
  {| call_now := now0; location_id := "X"; current_data := data0;
     forecast_hours := [1; 3; 6; 12; 24]; historical_data := None |}.

(** C2 refuted: two concurrent identical calls whose cache reads both
    precede the first write run the horizon loop twice. *)
Lemma concurrent_calls_compute_twice :
  computations (fst (run [0; 1; 0; 1]%nat (sys0 svc16 redis0) (start [call0; call0]))) = 2%nat.
Proof. vm_compute. reflexivity. Qed.

Section TwoCalls.
Variables (svc : MLService) (b : Booster) (cl1 cl2 : Call).
Hypothesis Hb : xgboost_model svc = Some b.

(** The state of a call whose cache read missed: still to compute, or
    finished with its own list. *)
Definition phase (cl : Call) (done : bool) : pc :=
  if done then Finished (Ok (JPoints (loop_of svc b cl))) else AfterGet None.

Lemma run_length (sched : list nat) :
  forall s ts, length (snd (run sched s ts)) = length ts.
Proof.
  induction sched as [|k rest IH]; intros s ts; [reflexivity|].
  cbn [run]. destruct (ts !! k) as [[cl p]|] eqn:E; [|apply IH].
  destruct (step s cl p) as [s' p']. rewrite IH. apply length_insert.
Qed.

(** Entries of a schedule that name no call are no-ops. *)
Lemma run_filter (sched : list nat) :
  forall s ts, length ts = 2%nat ->
  run sched s ts = run (List.filter (fun k => Nat.ltb k 2) sched) s ts.
Proof.
  induction sched as [|k rest IH]; intros s ts Hl; [reflexivity|].
  cbn [run List.filter]. destruct (Nat.ltb_spec k 2) as [Hk|Hk].
  - cbn [run]. destruct (ts !! k) as [[cl p]|] eqn:E; [|apply IH, Hl].
    destruct (step s cl p) as [s' p']. apply IH. rewrite length_insert. exact Hl.
  - rewrite (proj2 (lookup_ge_None ts k)) by lia. apply IH, Hl.
Qed.

Lemma step_missed (s : Sys) (cl : Call) :
  service s = svc ->
  exists s', step s cl (AfterGet None) = (s', Finished (Ok (JPoints (loop_of svc b cl)))) /\
    service s' = svc /\ computations s' = S (computations s).
Proof.
  intros Hs. unfold step. rewrite Hs, Hb. eexists. split; [reflexivity|].
  split; reflexivity.
Qed.

(** After both reads missed, every later step of a call computes once and
    finishes it, with its own list. *)
Lemma run_after_misses (rest : list nat) :
  forall s d1 d2, service s = svc ->
  computations s = (Nat.b2n d1 + Nat.b2n d2)%nat ->
  let '(s', ts') := run rest s [(cl1, phase cl1 d1); (cl2, phase cl2 d2)] in
  exists e1 e2, ts' = [(cl1, phase cl1 e1); (cl2, phase cl2 e2)] /\
    computations s' = (Nat.b2n e1 + Nat.b2n e2)%nat /\
    (d1 = true \/ In 0%nat rest -> e1 = true) /\ (d2 = true \/ In 1%nat rest -> e2 = true).
Proof.
  induction rest as [|k rest IH]; intros s d1 d2 Hs Hc.
  - cbn [run]. exists d1, d2. split; [reflexivity|]. split; [exact Hc|].
    split; intros [H|[]]; exact H.
  - cbn [run]. destruct k as [|[|k]].
    + cbn [lookup list_lookup].
      destruct d1.
      * cbn [phase step]. specialize (IH s true d2 Hs Hc). cbn [insert list_insert].
        destruct (run rest s _) as [s' ts'].
        destruct IH as (e1 & e2 & Hts & Hc' & H1 & H2).
        exists e1, e2. split; [exact Hts|]. split; [exact Hc'|].
        split; [intros _; apply H1; left; reflexivity|].
        intros [H|[H|H]]; [apply H2; left; exact H|discriminate|apply H2; right; exact H].
      * cbn [phase]. destruct (step_missed s cl1 Hs) as (s1 & E & Hs1 & Hc1). rewrite E.
        specialize (IH s1 true d2 Hs1 ltac:(rewrite Hc1, Hc; reflexivity)).
        cbn [insert list_insert].
        destruct (run rest s1 _) as [s' ts'].
        destruct IH as (e1 & e2 & Hts & Hc' & H1 & H2).
        exists e1, e2. split; [exact Hts|]. split; [exact Hc'|].
        split; [intros _; apply H1; left; reflexivity|].
        intros [H|[H|H]]; [apply H2; left; exact H|discriminate|apply H2; right; exact H].
    + cbn [lookup list_lookup].
      destruct d2.
      * cbn [phase step]. specialize (IH s d1 true Hs Hc). cbn [insert list_insert].
        destruct (run rest s _) as [s' ts'].
        destruct IH as (e1 & e2 & Hts & Hc' & H1 & H2).
        exists e1, e2. split; [exact Hts|]. split; [exact Hc'|].
        split; [|intros _; apply H2; left; reflexivity].
        intros [H|[H|H]]; [apply H1; left; exact H|discriminate|apply H1; right; exact H].
      * cbn [phase]. destruct (step_missed s cl2 Hs) as (s1 & E & Hs1 & Hc1). rewrite E.
        specialize (IH s1 d1 true Hs1 ltac:(rewrite Hc1, Hc; cbn; lia)).
        cbn [insert list_insert].
        destruct (run rest s1 _) as [s' ts'].
        destruct IH as (e1 & e2 & Hts & Hc' & H1 & H2).
        exists e1, e2. split; [exact Hts|]. split; [exact Hc'|].
        split; [|intros _; apply H2; left; reflexivity].
        intros [H|[H|H]]; [apply H1; left; exact H|discriminate|apply H1; right; exact H].
    + cbn [lookup list_lookup].
      specialize (IH s d1 d2 Hs Hc).
      destruct (run rest s _) as [s' ts'].
      destruct IH as (e1 & e2 & Hts & Hc' & H1 & H2).
      exists e1, e2. split; [exact Hts|]. split; [exact Hc'|].
      split; intros [H|[H|H]]; try discriminate;
        [apply H1; left | apply H1; right | apply H2; left | apply H2; right]; exact H.
Qed.

End TwoCalls.

(** C2 amended: nothing collapses concurrent calls.  Under every
    interleaving (a schedule whose entries naming the two calls begin with
    one step of each), when both calls read the cache before either writes
    it and both reads miss, each call runs the horizon loop and returns
    its own list: two computations.  In any state, a call skips the loop
    exactly when its read returned a truthy value (a non-empty list, or
    any other non-empty JSON value found under the key), and then returns
    that value; a read returns a value only when Redis answers and holds
    it, as valid JSON, under the key with its expiry not yet passed. *)
Theorem no_single_flight (svc : MLService) (b : Booster) (Hb : xgboost_model svc = Some b) :
  (forall c cl1 cl2 sched i j rest,
     get_cache (call_now cl1) c (key_of cl1) = None ->
     get_cache (call_now cl2) c (key_of cl2) = None ->
     List.filter (fun k => Nat.ltb k 2) sched = i :: j :: rest ->
     (i = 0 /\ j = 1 \/ i = 1 /\ j = 0)%nat -> In 0%nat rest -> In 1%nat rest ->
     let '(s, ts) := run sched (sys0 svc c) (start [cl1; cl2]) in
     computations s = 2%nat /\
     outcome ts 0 = Some (Ok (JPoints (loop_of svc b cl1))) /\
     outcome ts 1 = Some (Ok (JPoints (loop_of svc b cl2)))) /\
  (forall s cl cached, service s = svc ->
     (forall j, cached = Some j -> json_truthy j = true ->
        step s cl (AfterGet cached) = (s, Finished (Ok j))) /\
     ((cached = None \/ exists j, cached = Some j /\ json_truthy j = false) ->
        exists s', step s cl (AfterGet cached) = (s', Finished (Ok (JPoints (loop_of svc b cl)))) /\
          computations s' = S (computations s))) /\
  (forall t c k j, get_cache t c k = Some j <->
     exists r exp, c = Some r /\ alive r = true /\ store r !! k = Some (RJson j, exp) /\ t <= exp).
Proof.
  split; [|split].
  - intros c cl1 cl2 sched i j rest Hm1 Hm2 Hf Hij H0 H1.
    rewrite run_filter by reflexivity. rewrite Hf.
    assert (Hpre : run [i; j] (sys0 svc c) (start [cl1; cl2])
                   = (sys0 svc c, [(cl1, phase svc b cl1 false); (cl2, phase svc b cl2 false)])).
    { destruct Hij as [[-> ->]|[-> ->]]; cbn -[get_cache key_of];
        rewrite Hb; cbn -[get_cache key_of]; rewrite Hb, Hm1, Hm2; reflexivity. }
    change (i :: j :: rest) with ([i; j] ++ rest).
    assert (Happ : forall l1 l2 s ts, run (l1 ++ l2) s ts = let '(s', ts') := run l1 s ts in run l2 s' ts').
    { induction l1 as [|k l1 IH]; intros l2 s ts; [reflexivity|].
      cbn [app run]. destruct (ts !! k) as [[cl p]|]; [|apply IH].
      destruct (step s cl p). apply IH. }
    rewrite Happ, Hpre.
    pose proof (run_after_misses svc b cl1 cl2 Hb rest (sys0 svc c) false false eq_refl eq_refl)
      as Hr.
    destruct (run rest (sys0 svc c) _) as [s' ts'].
    destruct Hr as (e1 & e2 & -> & Hc & He1 & He2).
    rewrite (He1 (or_intror H0)), (He2 (or_intror H1)) in *.
    split; [exact Hc|]. split; reflexivity.
  - intros s cl cached Hs. split.
    + intros j -> Ht. unfold step. rewrite Hs, Hb, Ht. reflexivity.
    + intros Hc. unfold step. rewrite Hs, Hb.
      destruct Hc as [->|(j & -> & Ht)]; [|rewrite Ht]; eexists; split; reflexivity.
  - intros t c k j. unfold get_cache, redis_get. split.
    + destruct c as [r|]; [|discriminate].
      destruct (alive r) eqn:Ha; [|discriminate].
      destruct (store r !! k) as [[v exp]|] eqn:Es; [|discriminate].
      destruct (Z.leb_spec t exp); [|discriminate].
      destruct v as [l'|str]; cbn.
      * intros Hv. injection Hv as ->. exists r, exp. auto.
      * destruct (negb _); discriminate.
    + intros (r & exp & -> & Ha & Es & Ht). rewrite Ha, Es.
      destruct (Z.leb_spec t exp); [reflexivity|lia].
Qed.

Lemma no_single_flight_witness :
  computations (fst (run [1; 5; 0; 0; 7; 1]%nat (sys0 svc16 redis0) (start [call0; call0]))) = 2%nat /\
  outcome (snd (run [1; 5; 0; 0; 7; 1]%nat (sys0 svc16 redis0) (start [call0; call0]))) 0
    = Some (Ok (JPoints (loop_of svc16 booster16 call0))).
Proof.
  pose proof (proj1 (no_single_flight svc16 booster16 eq_refl) redis0 call0 call0
                [1; 5; 0; 0; 7; 1]%nat 1%nat 0%nat [0; 1]%nat) as H.
  destruct (run [1; 5; 0; 0; 7; 1]%nat (sys0 svc16 redis0) (start [call0; call0])) as [s ts].
  destruct H as (H1 & H2 & _).
  - vm_compute. reflexivity.
  - vm_compute. reflexivity.
  - reflexivity.
  - right. split; reflexivity.
  - left. reflexivity.
  - right. left. reflexivity.
  - split; [exact H1|exact H2].
Defined.

End AsyncFacts.

(** ** Concrete instances of the feature and confidence properties *)
Module InstanceFacts.
Import Cache ML FeatureFacts ConfidenceFacts HorizonOrderFacts.

(** A day of history, every hour at congestion level 4. *)
Definition rows24 : Frame :=
  {| columns := ["congestion_level"]; frame_rows := repeat {["congestion_level" := 4%Q]} 24 |}.

(** The same day, with the level of its first hour NULL. *)
Definition rows24_null : Frame :=
  {| columns := ["congestion_level"];
     frame_rows := ∅ :: repeat {["congestion_level" := 4%Q]} 23 |}.

Lemma lag_24h_feature_witness :
  (exists v, prepare_features svc16 now0 data0 (Some rows24) = Ok v /\
     v !! 13%nat = Some (Val 4)) /\
  (exists v, prepare_features svc16 now0 data0 (Some rows24_null) = Ok v /\
     v !! 13%nat = Some NaN).
Proof.
  split.
  - destruct (lag_24h_feature (Some booster16) init now0 data0 (Some rows24))
      as (v & Hv & _ & _ & H).
    exists v. split; [exact Hv|].
    rewrite (H rows24 {["congestion_level" := 4%Q]}); [reflexivity .. | cbn; lia | reflexivity].
  - destruct (lag_24h_feature (Some booster16) init now0 data0 (Some rows24_null))
      as (v & Hv & _ & _ & H).
    exists v. split; [exact Hv|].
    rewrite (H rows24_null ∅); [reflexivity .. | cbn; lia | reflexivity].
Defined.

Lemma feature_vector_schema_witness :
  exists v, prepare_features svc16 now0 data0 None = Ok v /\ length v = 15%nat /\
    v !! 0%nat = Some (Val 10).
Proof.
  destruct (feature_vector_schema (Some booster16) init now0 data0 None)
    as (_ & Hlen & v & Hv & Hl & Hn).
  exists v. split; [exact Hv|]. split; [rewrite Hl; exact Hlen|].
  rewrite (Hn 0%nat "hour_of_day") by reflexivity. vm_compute. reflexivity.
Defined.

Lemma confidence_decay_witness :
  (forall p, In p (horizon_loop svc16 booster16 now0 data0 None [1; 3]) ->
     (confidence p == coarse_conf (forecast_hours p))%Q) /\
  (coarse_conf 24 <= coarse_conf 1)%Q /\ (1 # 2 <= coarse_conf 40 <= 95 # 100)%Q.
Proof.
  destruct (confidence_decay svc16 booster16 now0 data0 None [1; 3]) as (H1 & H2 & H3).
  split; [exact H1|]. split; [apply H2; lia | apply H3].
Defined.

End InstanceFacts.

(** ** Sample inputs for the instances below *)
Module Samples.
Import TrafficModel Cache ML App MLMore.

Definition ens1 : Ensemble := {| rf := fun _ => 50%Q; gb := fun _ => 40%Q |}.
Definition mdl1 : TrafficPredictionModel := {| model := Some ens1; scaler := fun x => x |}.
Definition mdl0 : TrafficPredictionModel := {| model := None; scaler := fun x => x |}.

(** The text of scikit-learn's [ValueError] for a [nan] input, one
    possible answer to a null [free_flow_speed]. *)
Definition nan_error1 : string := "Input X contains NaN.".

Definition lat1 : Q := 377749 # 10000.
Definition lon1 : Q := (- (1224194 # 10000))%Q.


Definition route1 : RouteRequest :=
  {| req_coordinates := [[lat1; lon1]; [373382 # 10000; - (1218863 # 10000)]%Q];
     req_route_hour := Some 8; req_route_day_of_week := Some 1 |}.

Definition flow1 : TomTomJson :=
  {["flowSegmentData" := <["currentSpeed" := 30%Q]> {["freeFlowSpeed" := 60%Q]}]}.

Definition lstm1 : LSTM := fun _ => Some [[42; 55; 61]%Q].

Definition score1 : list (string * Q) := [("hour_of_day", 3%Q); ("temperature", 1%Q); ("is_weekend", 4%Q)].

Definition booster1 : Booster := fun _ => Some (27 # 10)%Q.
Definition svc1 : MLService := load_models (Some booster1) init.

Definition now1 : Z := 1760868000.
Definition data1 : Data := {| fields := {["temperature" := 18%Q]}; timestamp := None |}.

Definition row_a : Row := {["congestion_level" := 1%Q; "average_speed" := 50%Q]}.
Definition row_b : Row := {["congestion_level" := 3%Q]}.
Definition row_c : Row := {["congestion_level" := 4%Q; "average_speed" := 22%Q]}.

(** Three hours of history; the last one has no speed reading. *)
Definition frame1 : Frame :=
  {| columns := ["congestion_level"; "average_speed"]; frame_rows := [row_a; row_c; row_b] |}.

Definition point1 : Point :=
  {| forecast_hours := 1; target_time := now1 + 3600; predicted_congestion := 3;
     congestion_level := 3; Cache.confidence := 83 # 100; model_name := "xgboost" |}.

Definition redis1 : Redis :=
  {| alive := true;
     store := <["prediction:xgb:L1:2025101910" := (RJson (JPoints [point1]), now1 + 1800)]>
              {["ai_insight:Main St:2025101910" := (RJson (JOther true), now1 + 3600)]} |}.

End Samples.

(** ** Speed, historical average and training data of [TrafficPredictionModel] *)
Module TrafficModelMoreFacts.
Import TrafficModel Synthetic.

(** [predict] echoes the free-flow speed, reduces it by [0.6%] per point of
    congestion, so the reported reduction lies in [0, 60] and, for a
    non-negative free-flow speed, the current speed lies between [40%] of
    it and all of it. *)
Theorem predict_speed_bounds (mdl : TrafficPredictionModel) (hour day_of_week : Z)
    (lat lon ffs : Q) (r : Prediction) :
  predict mdl hour day_of_week lat lon ffs = Ok r ->
  free_flow_speed r = ffs /\
  (current_speed r == ffs * (1 - congestion r * (6 # 1000)))%Q /\
  (0 <= speed_reduction_percent r <= 60)%Q /\
  ((0 <= ffs)%Q -> ((2 # 5) * ffs <= current_speed r <= ffs)%Q).
Proof.
  unfold predict. destruct (model mdl) as [m|]; [|discriminate].
  intros H. injection H as <-. cbn.
  set (c := np_clip _ 0 100).
  pose proof (TrafficModelFacts.np_clip_range ((rf m (scaler mdl (features hour day_of_week lat lon ffs)) +
            gb m (scaler mdl (features hour day_of_week lat lon ffs))) / 2)) as Hc.
  fold c in Hc.
  split; [reflexivity|]. split; [field|]. split.
  - split.
    + assert (E : (c / 100 * (6 # 10) * 100 == (3 # 5) * c)%Q) by field. rewrite E. lra.
    + assert (E : (c / 100 * (6 # 10) * 100 == (3 # 5) * c)%Q) by field. rewrite E. lra.
  - intros Hf.
    assert (E : (ffs * (1 - c / 100 * (6 # 10)) == ffs - (3 # 500) * (ffs * c))%Q) by field.
    rewrite E.
    assert (0 <= ffs * (100 - c))%Q by (apply Qmult_le_0_compat; lra).
    assert (0 <= ffs * c)%Q by (apply Qmult_le_0_compat; lra).
    lra.
Qed.

(** The historical-average feature of [predict] lies in [[10.5, 70]], and
    on a weekend day it is [0.7] times its weekday value for the same hour. *)
Theorem historical_avg_range (hour day_of_week : Z) :
  ((21 # 2) <= historical_avg hour day_of_week <= 70)%Q /\
  (is_weekend day_of_week = 1%Z ->
     historical_avg hour day_of_week == (7 # 10) * historical_avg hour 0)%Q /\
  (is_weekend day_of_week = 0%Z -> historical_avg hour day_of_week = historical_avg hour 0).
Proof.
  unfold historical_avg.
  change (is_weekend 0) with 0. cbn [Z.eqb].
  set (base := if Z.eqb (is_rush_hour hour) 1 then 70%Q else _).
  assert (Hb : (15 <= base <= 70)%Q).
  { unfold base. destruct (Z.eqb _ 1); [lra|].
    destruct (_ && _); [lra|]. destruct (_ || _); lra. }
  destruct (Z.eqb (is_weekend day_of_week) 1) eqn:E.
  - apply Z.eqb_eq in E. split; [lra|]. split; [intros _; ring|]. intros H. congruence.
  - apply Z.eqb_neq in E. split; [lra|]. split; [intros H; congruence|]. reflexivity.
Qed.

End TrafficModelMoreFacts.

(** ** The synthetic training set against the features of [predict] *)
Module SyntheticFacts.
Import TrafficModel Synthetic.

Lemma lookup_map {A B} (f : A -> B) (l : list A) (i : nat) :
  List.map f l !! i = f <$> l !! i.
Proof.
  revert i. induction l as [|x l IH]; intros [|i]; cbn; auto.
Qed.

(** The [random()] draws that scale the free-flow speed and the base
    congestion lie in [[0, 1)], as numpy's [random()] guarantees. *)
Definition draw_ok (d : Draws) : Prop :=
  (0 <= u_ffs d < 1)%Q /\ (0 <= u_base d < 1)%Q.

Lemma base_congestion_range (hour day_of_week : Z) (u : Q) :
  (0 <= u < 1)%Q ->
  ((7 # 2) <= weekend_adjust day_of_week (base_congestion hour u) < 95)%Q.
Proof.
  intros Hu. unfold weekend_adjust, base_congestion.
  destruct (Z.eqb _ 1);
    repeat match goal with |- context [if ?b then _ else _] => destruct b end; lra.
Qed.

(** Every row of [generate_synthetic_training_data] has, for its drawn hour
    and day, the first seven features [predict] builds (the same
    [is_weekend] and [is_rush_hour] flags), followed by a historical average
    in [[3.5, 95)]; its free-flow speed lies in [[50, 80)] and its label in
    [[0, 100]]. *)
Theorem synthetic_rows_match_predict_features (draws : list Draws) :
  Forall draw_ok draws ->
  let '(X, y) := generate_synthetic_training_data draws in
  length X = length draws /\ length y = length draws /\
  forall i d, draws !! i = Some d ->
    exists row label lat lon ffs base,
      X !! i = Some row /\ y !! i = Some label /\
      row = firstn 7 (features (d_hour d) (d_day d) lat lon ffs) ++ [base] /\
      (50 <= ffs < 80)%Q /\ ((7 # 2) <= base < 95)%Q /\ (0 <= label <= 100)%Q.
Proof.
  intros Hall. unfold generate_synthetic_training_data.
  split; [apply List.length_map|]. split; [apply List.length_map|].
  intros i d Hi. rewrite !lookup_map, Hi. cbn [fmap option_fmap option_map].
  pose proof (proj1 (List.Forall_forall _ _) Hall d (proj1 (list_elem_of_In _ _) (list_elem_of_lookup_2 _ _ _ Hi)))
    as [Hf Hb].
  do 6 eexists. split; [reflexivity|]. split; [reflexivity|].
  split; [reflexivity|]. split; [lra|]. split.
  - apply base_congestion_range, Hb.
  - apply TrafficModelFacts.np_clip_range.
Qed.

(** For every hour and day, the historical average [predict] feeds the
    ensemble is a value the training generator can draw for that hour and
    day: some [u] in [[0, 1)] gives it as the base congestion. *)
Theorem historical_avg_in_training_support (hour day_of_week : Z) :
  exists u, (0 <= u < 1)%Q /\
    (weekend_adjust day_of_week (base_congestion hour u) == historical_avg hour day_of_week)%Q.
Proof.
  unfold weekend_adjust, base_congestion, historical_avg, is_rush_hour.
  destruct (decide (hour = 7 \/ hour = 8 \/ hour = 9 \/ hour = 17 \/ hour = 18 \/ hour = 19)) as [Hr|Hr];
    cbn [Z.eqb Pos.eqb];
    repeat match goal with |- context [?a <=? ?b] => destruct (Z.leb_spec a b) end;
    cbn [andb orb];
    try (exfalso; lia);
    first [ exists (1 # 3); split; [lra | destruct (Z.eqb _ 1); lra]
          | exists (1 # 6); split; [lra | destruct (Z.eqb _ 1); lra]
          | exists (1 # 5); split; [lra | destruct (Z.eqb _ 1); lra]
          | exists (1 # 2); split; [lra | destruct (Z.eqb _ 1); lra]
          | exists (2 # 5); split; [lra | destruct (Z.eqb _ 1); lra] ].
Qed.

End SyntheticFacts.

(** ** The Flask routes of the model service *)
Module AppFacts.
Import TrafficModel App.

Lemma predict_congestion_range (mdl : TrafficPredictionModel) (hour day_of_week : Z)
    (lat lon ffs : Q) (p : Prediction) :
  predict mdl hour day_of_week lat lon ffs = Ok p -> (0 <= congestion p <= 100)%Q.
Proof.
  unfold predict. destruct (model mdl); [|discriminate].
  intros H. injection H as <-. apply TrafficModelFacts.np_clip_range.
Qed.


(** [/predict] answers 400 with its fixed message as soon as one of
    [hour], [day_of_week], [lat], [lon] is absent or null, whatever the
    model. *)
Theorem predict_missing_field_400 (mdl : TrafficPredictionModel) (nan_error : string)
    (data : PredictRequest) :
  req_hour data = None \/ req_day_of_week data = None \/ req_lat data = None \/ req_lon data = None ->
  predict_congestion mdl nan_error data = RError 400 "Missing required fields: hour, day_of_week, lat, lon".
Proof.
  unfold predict_congestion.
  intros [H|[H|[H|H]]]; rewrite H;
    destruct (req_hour data), (req_day_of_week data), (req_lat data), (req_lon data);
    reflexivity.
Qed.






(** [/predict-route] answers 400 with its fixed message when the
    coordinates are missing or empty, or the hour or the day is missing,
    whatever the model. *)
Theorem predict_route_missing_400 (mdl : TrafficPredictionModel) (data : RouteRequest) :
  req_coordinates data = [] \/ req_route_hour data = None \/ req_route_day_of_week data = None ->
  predict_route mdl data = RError 400 "Missing required fields: coordinates, hour, day_of_week".
Proof.
  unfold predict_route. intros [H|[H|H]]; rewrite H;
    destruct (req_coordinates data), (req_route_hour data), (req_route_day_of_week data);
    reflexivity.
Qed.

(** Otherwise the first coordinate decides a 500: on an untrained model a
    first coordinate of two entries or more gives [predict]'s "not
    trained" message; a first coordinate with fewer than two entries gives
    Python's [IndexError] message whatever the model. *)
Theorem predict_route_first_error (mdl : TrafficPredictionModel) (data : RouteRequest)
    (c0 : list Q) (rest : list (list Q)) (hour day_of_week : Z) :
  req_coordinates data = c0 :: rest ->
  req_route_hour data = Some hour -> req_route_day_of_week data = Some day_of_week ->
  ((2 <= length c0)%nat -> model mdl = None ->
     predict_route mdl data = RError 500 "Model not trained. Call train() first.") /\
  ((length c0 < 2)%nat ->
     predict_route mdl data = RError 500 "list index out of range").
Proof.
  intros Hc Hh Hd. unfold predict_route. rewrite Hc, Hh, Hd. split.
  - intros Hl Hm. destruct c0 as [|lat [|lon c']]; cbn in Hl; [lia|lia|].
    cbn [route_loop lookup list_lookup]. unfold predict. rewrite Hm. reflexivity.
  - intros Hl. destruct c0 as [|lat [|lon c']]; cbn in Hl; [reflexivity|reflexivity|lia].
Qed.

Lemma congestion_percentage_bounds (td : TomTomJson) :
  (0 <= calculate_congestion_percentage td <= 100)%Q.
Proof.
  unfold calculate_congestion_percentage.
  destruct (td !! "flowSegmentData"); [|lra].
  destruct (Qeq_bool _ 0); [lra|]. apply (TrafficModelFacts.clamp_range 0 100). discriminate.
Qed.

(** [calculate_congestion_percentage] always lies in [[0, 100]]; it is 0
    without [flowSegmentData] or with a zero free-flow speed, and
    [(1 - current/free) * 100] when both speeds are given with
    [0 <= current <= free] and [free > 0]. *)
Theorem congestion_percentage_range (td : TomTomJson) :
  (0 <= calculate_congestion_percentage td <= 100)%Q /\
  (td !! "flowSegmentData" = None -> calculate_congestion_percentage td = 0%Q) /\
  (forall flow, td !! "flowSegmentData" = Some flow -> flow !! "freeFlowSpeed" = Some 0%Q ->
     calculate_congestion_percentage td = 0%Q) /\
  (forall flow cs ffs, td !! "flowSegmentData" = Some flow ->
     flow !! "currentSpeed" = Some cs -> flow !! "freeFlowSpeed" = Some ffs ->
     (0 < ffs)%Q -> (0 <= cs <= ffs)%Q ->
     (calculate_congestion_percentage td == (1 - cs / ffs) * 100)%Q).
Proof.
  split; [apply congestion_percentage_bounds|].
  unfold calculate_congestion_percentage. split; [|split].
  - intros ->. reflexivity.
  - intros flow -> Hf. unfold ML.dget. rewrite Hf. reflexivity.
  - intros flow cs ffs -> Hc Hf Hpos Hle. unfold ML.dget. rewrite Hc, Hf.
    destruct (Qeq_bool ffs 0) eqn:E.
    + apply Qeq_bool_eq in E. lra.
    + assert (H1 : (cs / ffs <= 1)%Q) by (apply Qle_shift_div_r; lra).
      assert (H2 : (0 <= cs / ffs)%Q) by (apply Qle_shift_div_l; lra).
      unfold clamp. rewrite Q.min_r by lra. rewrite Q.max_r by lra. reflexivity.
Qed.

(** [/tomtom/traffic] answers 400 without [lat] or [lon], 500 when the
    TomTom call gives an empty answer, and otherwise 200 with that answer
    and a congestion percentage in [[0, 100]]. *)
Theorem tomtom_route_outcomes (get_traffic_flow : Q -> Q -> TomTomJson) (lat lon : option Q) :
  ((lat = None \/ lon = None) ->
     get_tomtom_traffic get_traffic_flow lat lon = RError 400 "Missing required fields: lat, lon") /\
  (forall la lo, lat = Some la -> lon = Some lo ->
     (get_traffic_flow la lo = ∅ ->
        get_tomtom_traffic get_traffic_flow lat lon = RError 500 "Failed to fetch TomTom data") /\
     (get_traffic_flow la lo <> ∅ ->
        exists body, get_tomtom_traffic get_traffic_flow lat lon = R200 body /\
          traffic_data body = get_traffic_flow la lo /\
          (0 <= tomtom_congestion body <= 100)%Q)).
Proof.
  unfold get_tomtom_traffic. split.
  - intros [->| ->]; [reflexivity|destruct lat; reflexivity].
  - intros la lo -> ->. split.
    + intros He. rewrite He. reflexivity.
    + intros Hne. destruct (decide _) as [He|_]; [congruence|].
      eexists. split; [reflexivity|]. split; [reflexivity|].
      apply congestion_percentage_bounds.
Qed.

End AppFacts.

(** ** Python's [round] *)
Module RoundFacts.

Lemma round_half_even_cases (x : Q) :
  let fl := Qfloor x in
  (round_half_even x = fl /\ (x - inject_Z fl <= 1 # 2)%Q) \/
  (round_half_even x = fl + 1 /\ (1 # 2 <= x - inject_Z fl)%Q).
Proof.
  cbv zeta. unfold round_half_even.
  destruct (Qcompare (x - inject_Z (Qfloor x)) (1 # 2)) eqn:E.
  - apply Qeq_alt in E. destruct (Z.even _); [left|right]; (split; [reflexivity|]); lra.
  - apply Qlt_alt in E. left. split; [reflexivity|]. lra.
  - apply Qgt_alt in E. right. split; [reflexivity|]. lra.
Qed.

(** [round(x)] is within [1/2] of [x]. *)
Lemma round_half_even_near (x : Q) : (Qabs (inject_Z (round_half_even x) - x) <= 1 # 2)%Q.
  pose proof (Qfloor_le x) as F1. pose proof (Qlt_floor x) as F2.
  pose proof (Qfloor_le x). pose proof (Qlt_floor x).
  rewrite inject_Z_plus in *. change (inject_Z 1) with 1%Q in *.
  apply Qabs_Qle_condition.
  destruct (round_half_even_cases x) as [[E D]|[E D]]; rewrite E;
    [|rewrite inject_Z_plus; change (inject_Z 1) with 1%Q]; split; lra.
Qed.

(** [round(x)] stays within integer bounds of [x]. *)
Lemma round_half_even_bounds (a b : Z) (x : Q) :
  (inject_Z a <= x <= inject_Z b)%Q -> a <= round_half_even x <= b.
Proof.
  intros [Ha Hb].
  pose proof (Qfloor_resp_le _ _ Ha) as Fa. rewrite Qfloor_Z in Fa.
  pose proof (Qfloor_resp_le _ _ Hb) as Fb. rewrite Qfloor_Z in Fb.
  destruct (round_half_even_cases x) as [[E _]|[E D]]; rewrite E; [lia|].
  split; [lia|].
  destruct (Z.eq_dec (Qfloor x) b) as [Eb|Eb]; [|lia].
  rewrite Eb in D. lra.
Qed.

End RoundFacts.

(** ** LSTM forecasts, feature importance and the model routes *)
Module MLMoreFacts.
Import Cache ML App MLMore.

Lemma lstm_loop_exhausted (now : Z) (out : list Q) (hours : list Z) (idx : nat) :
  (length out <= idx)%nat -> lstm_loop now out idx hours = [].
Proof.
  revert idx. induction hours as [|h rest IH]; intros idx Hi; [reflexivity|].
  cbn [lstm_loop]. destruct (Nat.ltb_spec idx (length out)); [lia|]. apply IH. lia.
Qed.

Lemma lstm_loop_prefix (now : Z) (out : list Q) (hours : list Z) (idx : nat) :
  exists k, (k <= length out - idx)%nat /\
    List.map forecast_hours (lstm_loop now out idx hours) = firstn k hours /\
    forall i p, lstm_loop now out idx hours !! i = Some p ->
      exists v, out !! (idx + i)%nat = Some v /\
        predicted_congestion p = round2 v /\ congestion_level p = round_half_even v /\
        confidence p = 4 # 5 /\ model_name p = "lstm" /\
        target_time p = now + forecast_hours p * 3600.
Proof.
  revert idx. induction hours as [|h rest IH]; intros idx.
  - exists 0%nat. split; [lia|]. split; [reflexivity|]. intros i p H. done.
  - cbn [lstm_loop]. destruct (Nat.ltb_spec idx (length out)) as [Hlt|Hge].
    + destruct (_ || _).
      * exists 0%nat. split; [lia|]. split; [reflexivity|]. intros i p H. done.
      * destruct (IH (S idx)) as (k & Hk & Hm & Hv).
        exists (S k). split; [lia|]. split; [cbn; rewrite Hm; reflexivity|].
        intros [|i] p H; cbn in H.
        -- injection H as <-. destruct (lookup_lt_is_Some_2 out idx Hlt) as [v Hv0].
           exists v. rewrite Nat.add_0_r, Hv0. cbn. auto 6.
        -- destruct (Hv i p H) as (v & Hv1 & Hrest). exists v.
           rewrite Nat.add_succ_r. auto.
    + rewrite lstm_loop_exhausted by lia.
      exists 0%nat. split; [lia|]. split; [reflexivity|]. intros i p H. done.
Qed.


(** [predict_congestion_lstm] raises "LSTM model not loaded" without a
    model. With one, it never raises: it returns [[]] when the network
    raises or gives no output row, and otherwise points for a prefix of
    [forecast_hours], at most one per value of the first output row, the
    [i]-th point carrying [round(out[i], 2)], [round(out[i])], confidence
    0.80 and the model name "lstm". A 2-D [sequence_data] reaches the
    network as a batch of one. *)
Theorem lstm_forecast_prefix (m : LSTM) (now : Z) (location_id : string)
    (sequence_data : NDArray) (forecast_hours : list Z) :
  predict_congestion_lstm None now location_id sequence_data forecast_hours
    = Err (ValueError "LSTM model not loaded") /\
  let x := match sequence_data with A2 rows => A3 [rows] | s => s end in
  exists ps, predict_congestion_lstm (Some m) now location_id sequence_data forecast_hours = Ok ps /\
    ((m x = None \/ m x = Some []) -> ps = []) /\
    (forall out rest, m x = Some (out :: rest) ->
       exists k, (k <= length out)%nat /\ List.map Cache.forecast_hours ps = firstn k forecast_hours /\
         forall i p, ps !! i = Some p ->
           exists v, out !! i = Some v /\
             predicted_congestion p = round2 v /\ congestion_level p = round_half_even v /\
             Cache.confidence p = 4 # 5 /\ model_name p = "lstm").
Proof.
  split; [reflexivity|]. cbv zeta.
  unfold predict_congestion_lstm.
  set (x := match sequence_data with A2 rows => A3 [rows] | s => s end).
  destruct (m x) as [[|out rest]|] eqn:E.
  - eexists. split; [reflexivity|]. split; [reflexivity|]. intros ? ? H. discriminate.
  - eexists. split; [reflexivity|]. split; [intros [H|H]; discriminate|].
    intros out' rest' H. injection H as <- <-.
    destruct (lstm_loop_prefix now out forecast_hours 0) as (k & Hk & Hm & Hv).
    exists k. split; [lia|]. split; [exact Hm|].
    intros i p Hp. destruct (Hv i p Hp) as (v & Hv1 & H1 & H2 & H3 & H4 & _).
    exists v. auto.
  - eexists. split; [reflexivity|]. split; [reflexivity|]. intros ? ? H. discriminate.
Qed.


Lemma fold_sum (l : list (string * Q)) (a : Q) :
  (fold_left (fun acc kv => acc + snd kv) l a == a + fold_right (fun kv acc => snd kv + acc) 0 l)%Q.
Proof.
  revert a. induction l as [|kv l IH]; intros a; cbn; [ring|].
  rewrite IH. ring.
Qed.

Lemma sum_nonneg_le (l : list (string * Q)) :
  Forall (fun kv => 0 <= snd kv)%Q l ->
  (0 <= fold_right (fun kv acc => snd kv + acc) 0 l)%Q /\
  Forall (fun kv => snd kv <= fold_right (fun kv acc => snd kv + acc) 0 l)%Q l.
Proof.
  induction 1 as [|kv l Hkv _ [H0 Hle]]; cbn.
  - split; [lra|constructor].
  - split; [lra|]. constructor; [lra|].
    eapply List.Forall_impl; [|exact Hle]. intros kv' H. cbn beta in *. lra.
Qed.

Lemma round4_unit (q : Q) : (0 <= q <= 1)%Q -> (0 <= round4 q <= 1)%Q.
Proof.
  intros Hq. unfold round4.
  assert (H : 0 <= round_half_even (q * inject_Z 10000) <= 10000).
  { apply RoundFacts.round_half_even_bounds. change (inject_Z 0) with 0%Q.
    change (inject_Z 10000) with 10000%Q. lra. }
  unfold Qle; cbn [Qnum Qden]. lia.
Qed.

(** [get_feature_importance] gives [{}] without a booster, when
    [get_score] raises, or when the gains sum to 0; otherwise it keeps the
    keys of [get_score] in their order, and with non-negative gains every
    normalised value lies in [[0, 1]]. *)
Theorem feature_importance_normalised (svc : MLService) (get_score : option (list (string * Q))) :
  (xgboost_model svc = None -> get_feature_importance svc get_score = []) /\
  (get_score = None -> get_feature_importance svc get_score = []) /\
  (forall b importance, xgboost_model svc = Some b -> get_score = Some importance ->
     let total := fold_left (fun acc kv => (acc + snd kv)%Q) importance 0%Q in
     ((total == 0)%Q -> get_feature_importance svc get_score = []) /\
     (~ (total == 0)%Q ->
        List.map fst (get_feature_importance svc get_score) = List.map fst importance /\
        (Forall (fun kv => 0 <= snd kv)%Q importance ->
           Forall (fun kv => 0 <= snd kv <= 1)%Q (get_feature_importance svc get_score)))).
Proof.
  unfold get_feature_importance. split; [|split].
  - intros ->. reflexivity.
  - intros ->. destruct (xgboost_model svc); reflexivity.
  - intros b importance Hb Hs. cbv zeta. rewrite Hb, Hs. split.
    + intros H. apply Qeq_bool_iff in H. rewrite H. reflexivity.
    + intros H. destruct (Qeq_bool _ 0) eqn:E; [apply Qeq_bool_iff in E; contradiction|].
      split; [rewrite List.map_map; reflexivity|].
      intros Hall. pose proof (fold_sum importance 0) as Hf.
      destruct (sum_nonneg_le importance Hall) as [H0 Hle].
      set (t := fold_left _ importance 0%Q) in *.
      assert (Ht : (0 < t)%Q).
      { rewrite Hf. apply Qle_lteq in H0 as [H0|H0]; [lra|].
        exfalso. apply H. rewrite Hf, <- H0. reflexivity. }
      apply List.Forall_map. eapply List.Forall_impl; [|apply List.Forall_and; [exact Hall|exact Hle]].
      intros kv [H1 H2]. cbn [snd]. apply round4_unit. split.
      * apply Qle_shift_div_l; lra.
      * apply Qle_shift_div_r; [lra|]. rewrite Hf. lra.
Qed.

(** Order used by [sorted(..., reverse=True)]: non-increasing values. *)
Definition desc (a b : string * Q) : Prop := (snd b <= snd a)%Q.

Lemma insert_desc_perm (x : string * Q) (l : list (string * Q)) :
  Permutation (insert_desc x l) (x :: l).
Proof.
  induction l as [|y r IH]; cbn; [reflexivity|].
  destruct (Qle_bool _ _); [reflexivity|].
  rewrite IH. apply perm_swap.
Qed.

Lemma insert_desc_hd (x y : string * Q) (r : list (string * Q)) :
  HdRel desc y r -> desc y x -> HdRel desc y (insert_desc x r).
Proof.
  intros Hr Hx. destruct r as [|z r']; cbn.
  - constructor. exact Hx.
  - destruct (Qle_bool _ _); constructor; [exact Hx|]. inversion Hr; assumption.
Qed.

Lemma insert_desc_sorted (x : string * Q) (l : list (string * Q)) :
  Sorted desc l -> Sorted desc (insert_desc x l).
Proof.
  induction l as [|y r IH]; intros Hs; cbn.
  - repeat constructor.
  - destruct (Qle_bool (snd y) (snd x)) eqn:E.
    + constructor; [exact Hs|]. constructor. apply Qle_bool_iff, E.
    + inversion Hs as [|? ? Hr Hhd]; subst. constructor; [apply IH, Hr|].
      apply insert_desc_hd; [exact Hhd|]. unfold desc.
      apply Qlt_le_weak, Qnot_le_lt. intros H. apply Qle_bool_iff in H. congruence.
Qed.

Lemma sorted_desc_spec (l : list (string * Q)) :
  Sorted desc (sorted_desc l) /\ Permutation (sorted_desc l) l.
Proof.
  induction l as [|x r [Hs Hp]]; cbn; [split; constructor|].
  split; [apply insert_desc_sorted, Hs|].
  rewrite insert_desc_perm, Hp. reflexivity.
Qed.

(** [/model/features] answers 503 exactly when [get_feature_importance] is
    empty, and otherwise 200 with the same (name, value) pairs ordered by
    non-increasing value. *)
Theorem feature_route_sorted (ml_service : MLService) (get_score : option (list (string * Q))) :
  (get_feature_importance ml_service get_score = [] ->
     feature_importance_route ml_service get_score = RError 503 "Feature importance not available") /\
  (get_feature_importance ml_service get_score <> [] ->
     exists l, feature_importance_route ml_service get_score = R200 l /\
       Sorted desc l /\ Permutation l (get_feature_importance ml_service get_score)).
Proof.
  unfold feature_importance_route. split.
  - intros ->. reflexivity.
  - destruct (get_feature_importance ml_service get_score) as [|kv r]; [congruence|].
    intros _. eexists. split; [reflexivity|]. apply sorted_desc_spec.
Qed.

End MLMoreFacts.

(** ** Features, rounding and cache writes of [predict_congestion_xgboost] *)
Module XGBoostMoreFacts.
Import Cache ML.

Lemma features_dict_time (now : Z) (data : Data) (hist : option Frame) :
  let ts := match timestamp data with Some t => t | None => now end in
  features_dict now data hist !! "hour_of_day" = Some (Val (inject_Z (Clock.hour ts))) /\
  features_dict now data hist !! "day_of_week" = Some (Val (inject_Z (Clock.weekday ts))).
Proof.
  unfold features_dict. destruct (lag_features data hist) as [[[l1 l3] l24] s1].
  split; reflexivity.
Qed.

Lemma hour_shift (now h : Z) : Clock.hour (now + h * 3600) = (Clock.hour now + h) mod 24.
Proof.
  unfold Clock.hour. rewrite Z.div_add by lia. rewrite Zplus_mod_idemp_l. reflexivity.
Qed.

(** For a horizon [h] that produces a point, the booster was given a row
    whose [hour_of_day] is [(hour(now) + h) mod 24] and whose
    [day_of_week] is the weekday of [now + h] hours; the point's
    [predicted_congestion] and [congestion_level] are [round(raw, 2)] and
    [round(raw)] of the booster's output [raw], the level within [1/2] of
    it. *)
Theorem predict_one_target_time (svc : MLService) (b : Booster) (now : Z) (data : Data)
    (hist : option Frame) (h : Z) (p : Point) :
  feature_columns svc = Some feature_columns_const ->
  predict_one svc b now data hist h = Some p ->
  exists v raw, b v = Some raw /\
    v !! 0%nat = Some (Val (inject_Z ((Clock.hour now + h) mod 24))) /\
    v !! 1%nat = Some (Val (inject_Z (Clock.weekday (now + h * 3600)))) /\
    target_time p = now + h * 3600 /\
    predicted_congestion p = round2 raw /\ congestion_level p = round_half_even raw /\
    (Qabs (inject_Z (congestion_level p) - raw) <= 1 # 2)%Q.
Proof.
  intros Hfc. unfold predict_one.
  destruct (_ || _); [discriminate|].
  unfold prepare_features. rewrite Hfc.
  destruct (FeatureFacts.select_columns_spec _ _
              (FeatureFacts.features_dict_complete now
                 {| fields := fields data; timestamp := Some (now + h * 3600) |} hist))
    as (v & Hv & _ & Hn).
  rewrite Hv. destruct (b v) as [raw|] eqn:Eb; [|discriminate].
  intros H. injection H as <-.
  destruct (features_dict_time now {| fields := fields data; timestamp := Some (now + h * 3600) |} hist)
    as [Hh Hd].
  cbn [timestamp] in Hh, Hd.
  exists v, raw. split; [exact Eb|].
  split; [rewrite (Hn 0%nat "hour_of_day") by reflexivity; rewrite Hh, hour_shift; reflexivity|].
  split; [rewrite (Hn 1%nat "day_of_week") by reflexivity; exact Hd|].
  cbn [target_time predicted_congestion congestion_level].
  split; [reflexivity|]. split; [reflexivity|]. split; [reflexivity|].
  apply RoundFacts.round_half_even_near.
Qed.

(** With no history (absent or empty) and an empty [data] dict,
    [prepare_features] falls back to its defaults: temperature 20,
    visibility 10, vehicle count 100, speed 40, lags 2 and speed lag 40,
    the time features coming from the timestamp (or [now]). *)
Theorem prepare_features_defaults (f : option Booster) (svc : MLService) (now : Z)
    (ts : option Z) (hist : option Frame) :
  hist = None \/ (exists fr, hist = Some fr /\ frame_rows fr = []) ->
  let t := match ts with Some t => t | None => now end in
  prepare_features (load_models f svc) now {| fields := ∅; timestamp := ts |} hist =
  Ok (map Val [inject_Z (Clock.hour t); inject_Z (Clock.weekday t);
               (if 5 <=? Clock.weekday t then 1 else 0)%Q;
               0; 20; 0; 10; 100; 40; 0; 0; 2; 2; 2; 40]%Q).
Proof.
  intros Hh. cbv zeta.
  destruct Hh as [-> | ([cols rows] & -> & Hr)]; [reflexivity|].
  cbn in Hr. subst rows. reflexivity.
Qed.

(** The one-hour lags: with a non-empty history, [congestion_lag_1h] and
    [speed_lag_1h] are the cells of its last row and [congestion_lag_3h]
    the cell of the third row from the end (2 with fewer than three rows),
    each read as pandas does: [nan] for a NULL or missing cell of a column
    the frame has, the default (2, or 40 for the speed) only when the frame
    lacks the column; without history, they come from [data] itself, and
    the 3-hour lag is 2. *)
Theorem short_lag_features (f : option Booster) (svc : MLService) (now : Z)
    (data : Data) (hist : option Frame) :
  exists v, prepare_features (load_models f svc) now data hist = Ok v /\
    (forall fr last, hist = Some fr ->
       frame_rows fr !! (length (frame_rows fr) - 1)%nat = Some last ->
       v !! 11%nat = Some (row_get fr last "congestion_level" 2) /\
       v !! 14%nat = Some (row_get fr last "average_speed" 40) /\
       (length (frame_rows fr) < 3 -> v !! 12%nat = Some (Val 2))%nat /\
       (forall r3, frame_rows fr !! (length (frame_rows fr) - 3)%nat = Some r3 ->
          (3 <= length (frame_rows fr))%nat ->
          v !! 12%nat = Some (row_get fr r3 "congestion_level" 2))) /\
    ((hist = None \/ exists fr, hist = Some fr /\ frame_rows fr = []) ->
       v !! 11%nat = Some (Val (dget (fields data) "congestion_level" 2)) /\
       v !! 12%nat = Some (Val 2) /\
       v !! 14%nat = Some (Val (dget (fields data) "average_speed" 40))).
Proof.
  destruct (FeatureFacts.prepare_features_loaded f svc now data hist) as (v & Hv & _ & Hn).
  assert (Hl : v !! 11%nat = Some (fst (fst (fst (lag_features data hist)))) /\
               v !! 12%nat = Some (snd (fst (fst (lag_features data hist)))) /\
               v !! 14%nat = Some (snd (lag_features data hist))).
  { rewrite (Hn 11%nat "congestion_lag_1h"), (Hn 12%nat "congestion_lag_3h"),
      (Hn 14%nat "speed_lag_1h") by reflexivity.
    unfold features_dict. destruct (lag_features data hist) as [[[l1 l3] l24] s1].
    repeat split; reflexivity. }
  destruct Hl as (H11 & H12 & H14).
  exists v. split; [exact Hv|]. rewrite H11, H12, H14. split.
  - intros [cols rows] last -> Hlast. cbn [frame_rows] in *.
    assert (Hpos : (0 < length rows)%nat).
    { destruct rows; [discriminate|]. cbn. lia. }
    unfold lag_features. cbn [frame_rows]. destruct (Nat.ltb_spec 0 (length rows)); [|lia].
    cbn [fst snd]. unfold iloc_from_end, Row in *. rewrite Hlast. cbn [default].
    split; [reflexivity|]. split; [reflexivity|]. split.
    + intros Hlt. destruct (Nat.leb_spec 3 (length rows)); [lia|reflexivity].
    + intros r3 Hr3 Hge. destruct (Nat.leb_spec 3 (length rows)); [|lia].
      rewrite Hr3. reflexivity.
  - intros [-> | ([cols rows] & -> & Hr)]; [repeat split|].
    cbn in Hr. subst rows. repeat split.
Qed.

(** [predict_congestion_xgboost] leaves the Redis store as it was, except
    for one write: a non-empty list it returns, stored under its own cache
    key with a 1800 s expiry on a reachable Redis. *)
Theorem xgboost_writes_only_its_key (svc : MLService) (c : Client) (now : Z) (loc : string)
    (data : Data) (hours : list Z) (hist : option Frame) :
  let '(c', r) := predict_congestion_xgboost svc c now loc data hours hist in
  c' = c \/
  exists r0 l, c = Some r0 /\ alive r0 = true /\ r = Ok (JPoints l) /\ l <> [] /\
    c' = Some {| alive := true;
                 store := <[cache_key loc now := (RJson (JPoints l), now + 1800)]> (store r0) |}.
Proof.
  unfold predict_congestion_xgboost.
  destruct (xgboost_model svc) as [b|]; [|left; reflexivity].
  set (l := horizon_loop svc b now data hist hours).
  assert (W : (if nonempty l
               then (fst (set_cache now c (cache_key loc now) (JPoints l) 1800), Ok (JPoints l))
               else (c, Ok (JPoints l))) = (c, Ok (JPoints l)) \/
              exists r0, c = Some r0 /\ alive r0 = true /\ l <> [] /\
                (if nonempty l
                 then (fst (set_cache now c (cache_key loc now) (JPoints l) 1800), Ok (JPoints l))
                 else (c, Ok (JPoints l))) =
                (Some {| alive := true;
                         store := <[cache_key loc now := (RJson (JPoints l), now + 1800)]> (store r0) |},
                 Ok (JPoints l))).
  { destruct l as [|p ps] eqn:El; [left; reflexivity|]. cbn [nonempty].
    unfold set_cache, redis_setex. cbn [Z.eqb].
    destruct c as [r0|]; [|left; reflexivity].
    destruct (alive r0) eqn:Ea; [|left; reflexivity].
    right. exists r0. split; [reflexivity|]. split; [exact Ea|]. split; [discriminate|]. reflexivity. }
  destruct (get_cache now c (cache_key loc now)) as [cached|].
  - destruct (json_truthy cached); [left; reflexivity|].
    destruct W as [W|(r0 & ? & ? & ? & W)]; rewrite W; [left; reflexivity|]. right. eauto 7.
  - destruct W as [W|(r0 & ? & ? & ? & W)]; rewrite W; [left; reflexivity|]. right. eauto 7.
Qed.

End XGBoostMoreFacts.

(** ** The Redis helpers of cache.py *)
Module CacheMoreFacts.
Import Cache CacheMore.

Lemma get_cache_same_lookup (t : Z) (r1 r2 : Redis) (k : string) :
  alive r1 = true -> alive r2 = true -> store r1 !! k = store r2 !! k ->
  get_cache t (Some r1) k = get_cache t (Some r2) k.
Proof.
  intros H1 H2 Hk. unfold get_cache, redis_get. rewrite H1, H2, Hk. reflexivity.
Qed.


(** [delete_cache] on a reachable Redis returns [True], after which the
    key reads as absent and every other key as before; without a client
    or with Redis down it returns [False] and changes nothing. *)
Theorem delete_cache_spec (now : Z) (c : Client) (key : string) :
  (forall r, c = Some r -> alive r = true ->
     let '(c', ok) := delete_cache now c key in
     ok = true /\ (forall t, get_cache t c' key = None) /\
     (forall k t, k <> key -> get_cache t c' k = get_cache t c k)) /\
  ((c = None \/ exists r, c = Some r /\ alive r = false) -> delete_cache now c key = (c, false)).
Proof.
  split.
  - intros r -> Ha. unfold delete_cache, redis_delete. rewrite Ha. cbn [del_keys].
    split; [reflexivity|]. split.
    + intros t. unfold get_cache, redis_get. cbn [alive store]. rewrite lookup_delete_eq. reflexivity.
    + intros k t Hk. apply get_cache_same_lookup; [reflexivity|exact Ha|].
      cbn [store]. apply lookup_delete_ne. congruence.
  - intros [-> | (r & -> & Ha)]; [reflexivity|].
    unfold delete_cache, redis_delete. rewrite Ha. reflexivity.
Qed.

Lemma del_keys_spec (now : Z) (keys : list string) :
  List.NoDup keys -> forall s, Forall (fun k => live now s k = true) keys ->
  let '(s', n) := del_keys now s keys in
  n = Z.of_nat (length keys) /\
  (forall k, In k keys -> s' !! k = None) /\
  (forall k, ~ In k keys -> s' !! k = s !! k).
Proof.
  induction 1 as [|k0 ks Hnin Hnd IH]; intros s Hl.
  - cbn. split; [reflexivity|]. split; [intros k []|reflexivity].
  - inversion Hl as [|? ? Hk0 Hks]; subst. cbn [del_keys]. rewrite Hk0.
    assert (Hks' : Forall (fun k => live now (delete k0 s) k = true) ks).
    { eapply List.Forall_impl; [|apply List.Forall_forall; intros k Hk; exact (conj Hk (proj1 (List.Forall_forall _ _) Hks k Hk))].
      intros k [Hk Hlive]. unfold live. rewrite lookup_delete_ne by (intros E; subst; contradiction). exact Hlive. }
    specialize (IH (delete k0 s) Hks').
    destruct (del_keys now (delete k0 s) ks) as [s' m].
    destruct IH as (Hm & Hin & Hout). split; [rewrite Hm; cbn [length]; lia|]. split.
    + intros k [<-|Hk]; [|apply Hin, Hk]. rewrite Hout by exact Hnin. apply lookup_delete_eq.
    + intros k Hk. rewrite Hout by (intros H; apply Hk; right; exact H).
      apply lookup_delete_ne. intros ->. apply Hk. left. reflexivity.
Qed.

(** [clear_pattern] on a reachable Redis: afterwards no key the pattern
    matches reads as present (now or later), every other key reads as
    before, and the count returned is the number of keys [KEYS] listed. *)
Theorem clear_pattern_spec (now : Z) (r : Redis) (matches : string -> bool) :
  alive r = true ->
  let '(c', n) := clear_pattern now (Some r) matches in
  (forall k t, matches k = true -> now <= t -> get_cache t c' k = None) /\
  (forall k t, matches k = false -> get_cache t c' k = get_cache t (Some r) k) /\
  (forall ks, redis_keys now (Some r) matches = Ok ks -> n = Z.of_nat (length ks)).
Proof.
  intros Ha. unfold clear_pattern.
  set (ks := List.filter (fun k => matches k && live now (store r) k) (map fst (map_to_list (store r)))).
  assert (Hk : redis_keys now (Some r) matches = Ok ks) by (unfold redis_keys; rewrite Ha; reflexivity).
  assert (Hmem : forall k, In k ks <-> matches k = true /\ live now (store r) k = true).
  { intros k. unfold ks. rewrite List.filter_In, andb_true_iff. split; [tauto|].
    intros [Hm Hl]. split; [|tauto]. unfold live in Hl.
    destruct (store r !! k) as [[v e]|] eqn:E; [|discriminate].
    apply List.in_map_iff. exists (k, (v, e)). split; [reflexivity|].
    apply list_elem_of_In, elem_of_map_to_list, E. }
  assert (Hdead : forall k t, matches k = true -> ~ In k ks -> now <= t ->
                  get_cache t (Some r) k = None).
  { intros k t Hm Hn Ht. unfold get_cache, redis_get. rewrite Ha.
    assert (Hl : live now (store r) k = false).
    { destruct (live now (store r) k) eqn:E; [|reflexivity]. exfalso. apply Hn, Hmem. auto. }
    unfold live in Hl. destruct (store r !! k) as [[v e]|]; [|reflexivity].
    destruct (Z.leb_spec now e); [discriminate|]. destruct (Z.leb_spec t e); [lia|reflexivity]. }
  rewrite Hk.
  destruct ks as [|k0 ks'] eqn:Eks.
  - split; [|split].
    + intros k t Hm Ht. apply Hdead; auto.
    + reflexivity.
    + intros ks0 H. injection H as <-. reflexivity.
  - rewrite <- Eks in Hk, Hmem, Hdead |- *. unfold redis_delete. rewrite Ha.
    assert (Hnd : List.NoDup ks).
    { unfold ks. apply List.NoDup_filter, NoDup_ListNoDup, NoDup_fst_map_to_list. }
    assert (Hlv : Forall (fun k => live now (store r) k = true) ks).
    { apply List.Forall_forall. intros k Hk'. apply Hmem, Hk'. }
    pose proof (del_keys_spec now ks Hnd (store r) Hlv) as Hd.
    destruct (del_keys now (store r) ks) as [s' n].
    destruct Hd as (Hn & Hin & Hout).
    assert (Hget : forall k t, ~ In k ks ->
              get_cache t (Some {| alive := true; store := s' |}) k = get_cache t (Some r) k).
    { intros k t Hk'. apply get_cache_same_lookup; [reflexivity|exact Ha|]. apply Hout, Hk'. }
    split; [|split].
    + intros k t Hm Ht. destruct (in_dec String.string_dec k ks) as [Hi|Hi].
      * unfold get_cache, redis_get. cbn [alive store]. rewrite Hin by exact Hi. reflexivity.
      * rewrite Hget by exact Hi. apply Hdead; auto.
    + intros k t Hm. apply Hget. intros Hi. apply Hmem in Hi as [Hi _]. congruence.
    + intros ks0 H. injection H as <-. exact Hn.
Qed.

End CacheMoreFacts.

(** ** The rule-based fallback of the AI service *)
Module AIFallbackFacts.
Import AIFallback.

Lemma append_empty (s : string) : s +:+ EmptyString = s.
Proof.
  induction s as [|a s IH]; [reflexivity|].
  change (String a (s +:+ EmptyString) = String a s). rewrite IH. reflexivity.
Qed.

Lemma max_level_fold (rest : list Cache.Point) (m : Z) :
  (4 <=? fold_left (fun m q => Z.max m (Cache.congestion_level q)) rest m) =
  (4 <=? m) || existsb (fun p => 4 <=? Cache.congestion_level p) rest.
Proof.
  revert m. induction rest as [|q rest IH]; intros m; cbn; [rewrite orb_false_r; reflexivity|].
  rewrite IH. destruct (Z.leb_spec 4 m), (Z.leb_spec 4 (Cache.congestion_level q)),
    (Z.leb_spec 4 (Z.max m (Cache.congestion_level q))); cbn; try reflexivity; lia.
Qed.

(** [_fallback_analysis] picks its first sentence from the current level
    (4 and up, 3, below 3) and appends the heavy-congestion warning exactly
    when some prediction has a level of 4 or more; the answer is tagged
    ['fallback'] and carries the predictions unchanged. *)
Theorem fallback_warning (location_name : string) (cur : Z) (ps : list Cache.Point) :
  let a := fallback_analysis location_name cur ps in
  source a = "fallback" /\ predictions a = ps /\
  analysis a =
    (if 4 <=? cur then
       "Heavy traffic detected at " +:+ location_name +:+ ". Consider alternative routes or delaying travel if possible."
     else if 3 <=? cur then
       "Moderate congestion at " +:+ location_name +:+ ". Expect some delays."
     else
       "Traffic is flowing well at " +:+ location_name +:+ ". Good time to travel.") +:+
    (if existsb (fun p => 4 <=? Cache.congestion_level p) ps
     then " Heavy congestion is predicted in the coming hours." else EmptyString).
Proof.
  cbv zeta. unfold fallback_analysis. cbn [source predictions analysis].
  split; [reflexivity|]. split; [reflexivity|].
  destruct ps as [|p rest]; cbn [existsb].
  - rewrite append_empty. reflexivity.
  - unfold max_level. rewrite max_level_fold.
    destruct (_ || _); [reflexivity|]. rewrite append_empty. reflexivity.
Qed.

End AIFallbackFacts.

(** ** Instances of the properties above on sample inputs *)
Module ExtraWitnesses.
Import TrafficModel Synthetic Cache ML App MLMore CacheMore AIFallback Samples.

Lemma predict_speed_bounds_witness :
  exists r, predict mdl1 8 1 lat1 lon1 60 = Ok r /\ ((2 # 5) * 60 <= current_speed r <= 60)%Q.
Proof.
  eexists. split; [reflexivity|].
  apply (proj2 (proj2 (proj2 (TrafficModelMoreFacts.predict_speed_bounds mdl1 8 1 lat1 lon1 60 _ eq_refl)))).
  lra.
Defined.

Lemma historical_avg_range_witness :
  is_weekend 6 = 1 /\ (historical_avg 8 6 == (7 # 10) * historical_avg 8 0)%Q.
Proof.
  split; [reflexivity|].
  apply (proj1 (proj2 (TrafficModelMoreFacts.historical_avg_range 8 6))). reflexivity.
Defined.

Definition draws1 : list Draws :=
  [{| d_hour := 8; d_day := 5; u_lat := 1 # 2; u_lon := 1 # 4; u_ffs := 1 # 3; u_base := 9 # 10;
      g_noise := (-1)%Q |};
   {| d_hour := 23; d_day := 2; u_lat := 0%Q; u_lon := 0%Q; u_ffs := 0%Q; u_base := 0%Q;
      g_noise := (-3)%Q |}].

Lemma synthetic_rows_match_predict_features_witness :
  Forall SyntheticFacts.draw_ok draws1 /\
  let '(X, y) := generate_synthetic_training_data draws1 in
  length X = length draws1 /\ length y = length draws1 /\
  forall i d, draws1 !! i = Some d ->
    exists row label lat lon ffs base,
      X !! i = Some row /\ y !! i = Some label /\
      row = firstn 7 (features (d_hour d) (d_day d) lat lon ffs) ++ [base] /\
      (50 <= ffs < 80)%Q /\ ((7 # 2) <= base < 95)%Q /\ (0 <= label <= 100)%Q.
Proof.
  assert (H : Forall SyntheticFacts.draw_ok draws1).
  { repeat constructor; try unfold SyntheticFacts.draw_ok; cbn [u_ffs u_base]; lra. }
  split; [exact H|]. exact (SyntheticFacts.synthetic_rows_match_predict_features draws1 H).
Defined.

Definition req_no_lat : PredictRequest :=
  {| req_hour := Some 8; req_day_of_week := Some 1; req_lat := None; req_lon := Some lon1;
     req_free_flow_speed := FVal 60 |}.

Lemma predict_missing_field_400_witness :
  req_lat req_no_lat = None /\
  predict_congestion mdl1 nan_error1 req_no_lat = RError 400 "Missing required fields: hour, day_of_week, lat, lon".
Proof.
  split; [reflexivity|].
  apply AppFacts.predict_missing_field_400. right. right. left. reflexivity.
Defined.



Definition route_no_hour : RouteRequest :=
  {| req_coordinates := [[lat1; lon1]]; req_route_hour := None; req_route_day_of_week := Some 1 |}.

Lemma predict_route_missing_400_witness :
  req_route_hour route_no_hour = None /\
  predict_route mdl1 route_no_hour = RError 400 "Missing required fields: coordinates, hour, day_of_week".
Proof.
  split; [reflexivity|].
  apply AppFacts.predict_route_missing_400. right. left. reflexivity.
Defined.

Definition route_short : RouteRequest :=
  {| req_coordinates := [[lat1]; [lat1; lon1]]; req_route_hour := Some 8; req_route_day_of_week := Some 1 |}.

Lemma predict_route_first_error_witness :
  predict_route mdl0 route1 = RError 500 "Model not trained. Call train() first." /\
  predict_route mdl1 route_short = RError 500 "list index out of range".
Proof.
  split.
  - apply (proj1 (AppFacts.predict_route_first_error mdl0 route1 [lat1; lon1]
                    [[373382 # 10000; - (1218863 # 10000)]%Q] 8 1 eq_refl eq_refl eq_refl));
      [repeat constructor | reflexivity].
  - apply (proj2 (AppFacts.predict_route_first_error mdl1 route_short [lat1] [[lat1; lon1]] 8 1
                    eq_refl eq_refl eq_refl)).
    cbn. lia.
Defined.

Lemma congestion_percentage_range_witness :
  (calculate_congestion_percentage flow1 == 50)%Q.
Proof.
  eapply Qeq_trans.
  - apply (proj2 (proj2 (proj2 (AppFacts.congestion_percentage_range flow1)))
             _ 30%Q 60%Q eq_refl eq_refl eq_refl); lra.
  - reflexivity.
Defined.

Lemma tomtom_route_outcomes_witness :
  get_tomtom_traffic (fun _ _ => ∅) (Some lat1) (Some lon1) = RError 500 "Failed to fetch TomTom data" /\
  exists body, get_tomtom_traffic (fun _ _ => flow1) (Some lat1) (Some lon1) = R200 body /\
    (0 <= tomtom_congestion body <= 100)%Q.
Proof.
  split.
  - apply (proj1 (proj2 (AppFacts.tomtom_route_outcomes (fun _ _ => ∅) (Some lat1) (Some lon1))
                    lat1 lon1 eq_refl eq_refl)).
    reflexivity.
  - destruct (proj2 (proj2 (AppFacts.tomtom_route_outcomes (fun _ _ => flow1) (Some lat1) (Some lon1))
                    lat1 lon1 eq_refl eq_refl) ltac:(vm_compute; discriminate)) as (body & H1 & _ & H3).
    exists body. auto.
Defined.

Lemma lstm_forecast_prefix_witness :
  exists ps, predict_congestion_lstm (Some lstm1) now1 "L1" (A2 [[1; 2]%Q]) [1; 3; 6; 12; 24] = Ok ps /\
    exists k, (k <= 3)%nat /\ List.map Cache.forecast_hours ps = firstn k [1; 3; 6; 12; 24].
Proof.
  destruct (proj2 (MLMoreFacts.lstm_forecast_prefix lstm1 now1 "L1" (A2 [[1; 2]%Q]) [1; 3; 6; 12; 24]))
    as (ps & Hps & _ & Hout).
  exists ps. split; [exact Hps|].
  destruct (Hout [42; 55; 61]%Q [] eq_refl) as (k & Hk & Hm & _). exists k. auto.
Defined.


Lemma feature_importance_normalised_witness :
  List.map fst (get_feature_importance svc1 (Some score1)) = ["hour_of_day"; "temperature"; "is_weekend"] /\
  Forall (fun kv => 0 <= snd kv <= 1)%Q (get_feature_importance svc1 (Some score1)).
Proof.
  pose proof (proj2 (proj2 (MLMoreFacts.feature_importance_normalised svc1 (Some score1)))
              booster1 score1 eq_refl eq_refl) as H.
  cbv zeta in H. destruct H as [_ H].
  destruct H as [H1 H2]; [intros E; vm_compute in E; discriminate|].
  split; [exact H1|]. apply H2. repeat constructor; cbn [snd]; lra.
Defined.

Lemma feature_route_sorted_witness :
  exists l, feature_importance_route svc1 (Some score1) = R200 l /\ Sorted MLMoreFacts.desc l.
Proof.
  assert (Hne : get_feature_importance svc1 (Some score1) <> []) by (vm_compute; discriminate).
  destruct (proj2 (MLMoreFacts.feature_route_sorted svc1 (Some score1)) Hne) as (l & H1 & H2 & _).
  exists l. auto.
Defined.

Lemma predict_one_target_time_witness :
  exists p v raw, predict_one svc1 booster1 now1 data1 None 3 = Some p /\ booster1 v = Some raw /\
    v !! 0%nat = Some (Val (inject_Z ((Clock.hour now1 + 3) mod 24))).
Proof.
  destruct (predict_one svc1 booster1 now1 data1 None 3) as [p|] eqn:E.
  - destruct (XGBoostMoreFacts.predict_one_target_time svc1 booster1 now1 data1 None 3 p eq_refl E)
      as (v & raw & Hb & H0 & _).
    exists p, v, raw. auto.
  - vm_compute in E. discriminate.
Defined.

Lemma prepare_features_defaults_witness :
  prepare_features svc1 now1 {| fields := ∅; timestamp := None |} None =
  Ok (map Val [inject_Z (Clock.hour now1); inject_Z (Clock.weekday now1);
               (if 5 <=? Clock.weekday now1 then 1 else 0)%Q;
               0; 20; 0; 10; 100; 40; 0; 0; 2; 2; 2; 40]%Q).
Proof.
  exact (XGBoostMoreFacts.prepare_features_defaults (Some booster1) init now1 None None (or_introl eq_refl)).
Defined.

Lemma short_lag_features_witness :
  exists v, prepare_features svc1 now1 data1 (Some frame1) = Ok v /\
    v !! 11%nat = Some (Val 3) /\ v !! 14%nat = Some NaN /\ v !! 12%nat = Some (Val 1).
Proof.
  destruct (XGBoostMoreFacts.short_lag_features (Some booster1) init now1 data1 (Some frame1))
    as (v & Hv & H1 & _).
  destruct (H1 frame1 row_b eq_refl eq_refl) as (H11 & H14 & _ & H12).
  exists v. split; [exact Hv|]. rewrite H11, H14, (H12 row_a eq_refl) by (cbn; lia).
  split; [reflexivity|]. split; reflexivity.
Defined.


Lemma delete_cache_spec_witness :
  let '(c', ok) := delete_cache now1 (Some redis1) "prediction:xgb:L1:2025101910" in
  ok = true /\ get_cache now1 c' "prediction:xgb:L1:2025101910" = None.
Proof.
  pose proof (proj1 (CacheMoreFacts.delete_cache_spec now1 (Some redis1) "prediction:xgb:L1:2025101910")
                redis1 eq_refl eq_refl) as H.
  destruct (delete_cache now1 (Some redis1) "prediction:xgb:L1:2025101910") as [c' ok].
  destruct H as (H1 & H2 & _). split; [exact H1|]. apply H2.
Defined.

Definition prediction_keys (k : string) : bool := String.prefix "prediction:" k.

Lemma clear_pattern_spec_witness :
  let '(c', n) := clear_pattern now1 (Some redis1) prediction_keys in
  get_cache now1 c' "prediction:xgb:L1:2025101910" = None /\ n = 1.
Proof.
  pose proof (CacheMoreFacts.clear_pattern_spec now1 redis1 prediction_keys eq_refl) as H.
  destruct (clear_pattern now1 (Some redis1) prediction_keys) as [c' n].
  destruct H as (H1 & _ & H3). split.
  - apply H1; [reflexivity|lia].
  - apply (H3 ["prediction:xgb:L1:2025101910"]). vm_compute. reflexivity.
Defined.

End ExtraWitnesses.
